(** * diffusers_server: the request-to-inference translation layer

    A shallow embedding of [python/diffusers_server/server.py] and
    [python/diffusers_server/pipeline.py], and the properties of the
    specification that hold (or fail) on it.

    Conventions of the embedding:
    - a Python [str] is a [string] of 8-bit characters; only the ASCII range
      is interpreted ([str.lower], [int]), so the model covers ASCII text;
    - a Python [int] is a [Z];
    - an exception is a value of [pyexc] (its class and its [str()]); code
      that can raise returns a sum, [inl] for the raised exception;
    - everything outside the repository (torch, diffusers, the file system,
      the clock, PIL) is a field of [World], an oracle the code calls;
    - every call that crosses that boundary is recorded in a trace of
      [event]s, threaded through the monad [M]. *)

From Stdlib Require Import ZArith QArith Ascii String List Lia Bool.
From stdpp Require Import base strings list gmap.

Local Open Scope Z_scope.

(** ** Python built-ins used by the server *)

Module Py.

(** *** Exceptions *)

(** The classes the code distinguishes.  [BaseOnly] stands for the
    classes that derive from [BaseException] but not from [Exception]
    ([KeyboardInterrupt], [SystemExit]): [except Exception] lets them
    through. *)
Inductive exc_class : Type :=
| ValueError
| IndexError
| RuntimeError
| OtherException (name : string)
| BaseOnly (name : string).

Record pyexc : Type := Raise { exc_cls : exc_class; exc_str : string }.

Definition is_Exception (e : pyexc) : bool :=
  match exc_cls e with BaseOnly _ => false | _ => true end.

(** [isinstance(e, (ValueError, IndexError))] *)
Definition is_ValueError_or_IndexError (e : pyexc) : bool :=
  match exc_cls e with ValueError | IndexError => true | _ => false end.

(** The error monad of code that touches nothing outside itself. *)
Definition result (A : Type) : Type := pyexc + A.

Definition rbind {A B} (m : result A) (k : A -> result B) : result B :=
  match m with inl e => inl e | inr a => k a end.

(** [try: body except (ValueError, IndexError) as e: handler e] *)
Definition try_except {A} (body : result A) (catches : pyexc -> bool)
    (handler : pyexc -> result A) : result A :=
  match body with
  | inl e => if catches e then handler e else inl e
  | inr a => inr a
  end.

(** *** str *)

Definition is_upper (c : ascii) : bool :=
  let n := N_of_ascii c in ((65 <=? n) && (n <=? 90))%N.

Definition lower_char (c : ascii) : ascii :=
  if is_upper c then ascii_of_N (N_of_ascii c + 32) else c.

(** [s.lower()] *)
Fixpoint lower (s : string) : string :=
  match s with
  | EmptyString => EmptyString
  | String c r => String (lower_char c) (lower r)
  end.

(** [s.split(sep)] for a separator of one character: [k] occurrences of
    the separator give [k + 1] parts, empty ones included. *)
Fixpoint split (sep : ascii) (s : string) : list string :=
  match s with
  | EmptyString => [EmptyString]
  | String c r =>
      if Ascii.eqb c sep then EmptyString :: split sep r
      else match split sep r with
           | p :: ps => String c p :: ps
           | [] => [String c EmptyString]
           end
  end.

(** [l[i]] *)
Definition index {A} (l : list A) (i : nat) : result A :=
  match nth_error l i with
  | Some a => inr a
  | None => inl (Raise IndexError "list index out of range")
  end.

(** *** int(str) in base 10 *)

Definition is_digit (c : ascii) : bool :=
  let n := N_of_ascii c in ((48 <=? n) && (n <=? 57))%N.

Definition digit_value (c : ascii) : Z := Z.of_N (N_of_ascii c) - 48.

(** Leading white space: the characters [Py_ISSPACE] accepts. *)
Fixpoint skip_space (s : string) : string :=
  match s with
  | String c r => if Ascii.is_space c then skip_space r else s
  | EmptyString => s
  end.

(** The digit loop: digits and underscores are consumed; an underscore
    after an underscore, or as last consumed character, is an error.
    Returns the value, the number of digits and the unread rest. *)
Fixpoint scan_digits (s : string) (prev_us : bool) (acc : Z) (ndig : nat)
    : option (Z * nat * string) :=
  match s with
  | String c r =>
      if is_digit c then scan_digits r false (10 * acc + digit_value c) (S ndig)
      else if Ascii.eqb c "_" then
        (if prev_us then None else scan_digits r true acc ndig)
      else if prev_us then None else Some (acc, ndig, s)
  | EmptyString => if prev_us then None else Some (acc, ndig, s)
  end.

(** An optional sign. *)
Definition read_sign (s : string) : Z * string :=
  match s with
  | String c r =>
      if Ascii.eqb c "+" then (1, r)
      else if Ascii.eqb c "-" then (-1, r)
      else (1, s)
  | EmptyString => (1, s)
  end.

Definition starts_with (c : ascii) (s : string) : bool :=
  match s with
  | String d _ => Ascii.eqb d c
  | EmptyString => false
  end.

Section IntOfStr.
(** [sys.get_int_max_str_digits()]: 0 switches the limit off; CPython's
    default is 4300. *)
Variable max_str_digits : nat.

(** The limit is looked at for more than 640 digits only. *)
Definition exceeds_limit (ndig : nat) : bool :=
  ((640 <? ndig) && (0 <? max_str_digits) && (max_str_digits <? ndig))%nat.

(** After the sign: no leading underscore, at least one digit, and
    only white space after the digits. *)
Definition parse_digits (sign : Z) (s2 : string) : option Z :=
  if starts_with "_" s2 then None
  else
    match scan_digits s2 false 0 0 with
    | None => None
    | Some (v, ndig, rest) =>
        if (ndig =? 0)%nat then None
        else match skip_space rest with
             | EmptyString =>
                 if exceeds_limit ndig then None else Some (sign * v)
             | String _ _ => None
             end
    end.

Definition parse_int (s : string) : option Z :=
  let '(sign, s2) := read_sign (skip_space s) in
  parse_digits sign s2.

(** [int(s)] for a string of ASCII characters: every failure is a
    [ValueError]. *)
Definition int (s : string) : result Z :=
  match parse_int s with
  | Some z => inr z
  | None =>
      inl (Raise ValueError ("invalid literal for int() with base 10: '" +:+ s +:+ "'"))
  end.
End IntOfStr.

End Py.

#[global] Instance result_ret : MRet Py.result := fun _ a => inr a.
#[global] Instance result_bind : MBind Py.result := fun _ _ k m => Py.rbind m k.

(** ** server.py: parse_size *)

Section ParseSize.
Variable max_str_digits : nat.

Definition invalid_size (size : string) : Py.pyexc :=
  Py.Raise Py.ValueError ("Invalid size format: " +:+ size).

Definition parse_size (size : string) : Py.result (Z * Z) :=
  Py.try_except
    (let parts := Py.split "x" (Py.lower size) in
     if negb (length parts =? 2)%nat then inl (invalid_size size)
     else
       p0 ← Py.index parts 0;
       width ← Py.int max_str_digits p0;
       p1 ← Py.index parts 1;
       height ← Py.int max_str_digits p1;
       mret (width, height))
    Py.is_ValueError_or_IndexError
    (fun _ => inl (invalid_size size)).
End ParseSize.

(** ** The world outside the repository *)

(** [torch.float16], [torch.bfloat16], [torch.float32] *)
Inductive dtype : Type := float16 | bfloat16 | float32.

(** The three [from_pretrained] class methods of diffusers. *)
Inductive loader : Type :=
| DiffusionPipeline
| StableDiffusionPipeline
| StableDiffusionXLPipeline.

(** Values stored in the keyword dictionary of the model call. *)
Inductive pyval : Type :=
| VStr (s : string)
| VInt (z : Z)
| VFloat (q : Q)
| VGenerator (device : string) (seed : Z).

(** The arguments of [DiffusersPipeline.generate]. *)
Record GenerateArgs : Type := {
  prompt : string;
  num_images : Z;
  width : Z;
  height : Z;
  num_inference_steps : Z;
  guidance_scale : Q;
  negative_prompt : option string;
  seed : option Z
}.

Inductive event : Type :=
| EvFromPretrained (l : loader) (path : string) (torch_dtype : dtype)
    (local_files_only : bool)
| EvTo (device : string)
| EvEnableAttentionSlicing
| EvEnableXformers
| EvGenerate (args : GenerateArgs)
| EvPipelineCall (kwargs : gmap string pyval).

(** [Image] is a [PIL.Image]; [Pipe] is a loaded diffusers pipeline. *)
Record World (Image Pipe : Type) : Type := {
  int_max_str_digits : nat;
  cuda_is_available : bool;
  (** [hasattr(torch.backends, "mps") and torch.backends.mps.is_available()] *)
  mps_is_available : bool;
  path_exists : string -> bool;
  from_pretrained : loader -> string -> dtype -> bool -> Py.result Pipe;
  pipe_to : Pipe -> string -> Py.result Pipe;
  pipe_enable_attention_slicing : Pipe -> Py.result unit;
  pipe_enable_xformers : Pipe -> Py.result unit;
  torch_generator : string -> Z -> Py.result pyval;
  (** the model call with the keyword dictionary, then [.images] *)
  pipe_call : Pipe -> gmap string pyval -> Py.result (list Image);
  (** [img.save(buffer, format="PNG"); buffer.getvalue()] *)
  save_png : Image -> list Byte.byte;
  (** [int(time.time())] *)
  time_time : Z
}.

Arguments int_max_str_digits {Image Pipe}.
Arguments cuda_is_available {Image Pipe}.
Arguments mps_is_available {Image Pipe}.
Arguments path_exists {Image Pipe}.
Arguments from_pretrained {Image Pipe}.
Arguments pipe_to {Image Pipe}.
Arguments pipe_enable_attention_slicing {Image Pipe}.
Arguments pipe_enable_xformers {Image Pipe}.
Arguments torch_generator {Image Pipe}.
Arguments pipe_call {Image Pipe}.
Arguments save_png {Image Pipe}.
Arguments time_time {Image Pipe}.

(** ** The monad of effectful code: errors of type [E], and the trace *)

Definition M (E A : Type) : Type := list event -> (E + A) * list event.

#[global] Instance M_ret {E} : MRet (M E) := fun _ a t => (inr a, t).
#[global] Instance M_bind {E} : MBind (M E) := fun _ _ k m t =>
  match m t with
  | (inl e, t') => (inl e, t')
  | (inr a, t') => k a t'
  end.

Definition raise {E A} (e : E) : M E A := fun t => (inl e, t).

Definition emit {E} (ev : event) : M E unit := fun t => (inr tt, t ++ [ev]).

(** A call of an oracle of the world. *)
Definition call {A} (r : Py.result A) : M Py.pyexc A := fun t => (r, t).

(** [try: body except ...: handler]; the handler decides what it catches
    and re-raises the rest. *)
Definition try_catch {E1 E2 A} (body : M E1 A) (handler : E1 -> M E2 A) : M E2 A :=
  fun t =>
    match body t with
    | (inl e, t') => handler e t'
    | (inr a, t') => (inr a, t')
    end.

(** [try: body except Exception as e: handler e] *)
Definition try_except_Exception {A} (body : M Py.pyexc A)
    (handler : Py.pyexc -> M Py.pyexc A) : M Py.pyexc A :=
  try_catch body (fun e => if Py.is_Exception e then handler e else raise e).

Definition run {E A} (m : M E A) : (E + A) * list event := m [].

(** ** pipeline.py *)

(** [os.path.join(a, b)] on POSIX *)
Definition ends_with_slash (a : string) : bool :=
  match String.get (String.length a - 1) a with
  | Some c => Ascii.eqb c "/"
  | None => false
  end.

Definition os_path_join (a b : string) : string :=
  match b with
  | String "/" _ => b
  | _ => if (String.eqb a "" || ends_with_slash a)%bool then a +:+ b
         else a +:+ "/" +:+ b
  end.

Record DiffusersPipeline (Pipe : Type) : Type := {
  model_path : string;
  device : string;
  dtype_ : dtype;
  enable_attention_slicing : bool;
  pipeline : Pipe
}.

Arguments model_path {Pipe}.
Arguments device {Pipe}.
Arguments dtype_ {Pipe}.
Arguments enable_attention_slicing {Pipe}.
Arguments pipeline {Pipe}.

(** The defaults of the signature of [generate]. *)
Definition default_num_images : Z := 1.
Definition default_width : Z := 1024.
Definition default_height : Z := 1024.
Definition default_num_inference_steps : Z := 30.
Definition default_guidance_scale : Q := 15 # 2.
Definition default_negative_prompt : option string := None.
Definition default_seed : option Z := None.

Section Pipeline.
Context {Image Pipe : Type} (W : World Image Pipe).

Definition _resolve_device (device : string) : string :=
  if negb (String.eqb device "auto") then device
  else if cuda_is_available W then "cuda"
  else if mps_is_available W then "mps"
  else "cpu".

(** [self.device] is read, so the resolved device is an argument. *)
Definition _resolve_dtype (self_device : string) (precision : string) : dtype :=
  if String.eqb precision "fp16" then float16
  else if String.eqb precision "bf16" then bfloat16
  else if String.eqb precision "fp32" then float32
  else if String.eqb precision "auto" then
    (if (String.eqb self_device "cuda" || String.eqb self_device "mps")%bool
     then float16 else float32)
  else float32.

Definition load_with (l : loader) (model_path : string) (dt : dtype) : M Py.pyexc Pipe :=
  emit (EvFromPretrained l model_path dt true);;
  call (from_pretrained W l model_path dt true).

Definition load_error (model_path : string) (e : Py.pyexc) : Py.pyexc :=
  Py.Raise Py.RuntimeError
    ("Failed to load diffusers model from " +:+ model_path +:+ ": " +:+ Py.exc_str e).

(** The [try] block of [_load_pipeline]. *)
Definition load_attempts (model_path : string) (dt : dtype) : M Py.pyexc Pipe :=
  let model_index_path := os_path_join model_path "model_index.json" in
  try_except_Exception
    (if path_exists W model_index_path then
       load_with DiffusionPipeline model_path dt
     else
       try_except_Exception
         (load_with StableDiffusionXLPipeline model_path dt)
         (fun _ => load_with StableDiffusionPipeline model_path dt))
    (fun e => raise (load_error model_path e)).

(** [_load_pipeline]; the [from diffusers import ...] at its head is
    taken to succeed. *)
Definition _load_pipeline (model_path self_device : string) (dt : dtype)
    (attention_slicing : bool) : M Py.pyexc Pipe :=
  pipeline ← load_attempts model_path dt;
  emit (EvTo self_device);;
  pipeline ← call (pipe_to W pipeline self_device);
  (if attention_slicing then
     emit EvEnableAttentionSlicing;;
     call (pipe_enable_attention_slicing W pipeline)
   else mret tt);;
  (if String.eqb self_device "cuda" then
     try_except_Exception
       (emit EvEnableXformers;; call (pipe_enable_xformers W pipeline))
       (fun _ => mret tt)
   else mret tt);;
  mret pipeline.

(** [DiffusersPipeline.__init__] *)
Definition init (model_path device precision : string) (attention_slicing : bool)
    : M Py.pyexc (DiffusersPipeline Pipe) :=
  let self_device := _resolve_device device in
  let self_dtype := _resolve_dtype self_device precision in
  pipeline ← _load_pipeline model_path self_device self_dtype attention_slicing;
  mret {| model_path := model_path; device := self_device; dtype_ := self_dtype;
          enable_attention_slicing := attention_slicing; pipeline := pipeline |}.

Definition base_kwargs (a : GenerateArgs) : gmap string pyval :=
  <["prompt" := VStr (prompt a)]>
    (<["num_images_per_prompt" := VInt (num_images a)]>
      (<["width" := VInt (width a)]>
        (<["height" := VInt (height a)]>
          (<["num_inference_steps" := VInt (num_inference_steps a)]>
            (<["guidance_scale" := VFloat (guidance_scale a)]> ∅))))).

Definition build_kwargs (a : GenerateArgs) (generator : option pyval)
    : gmap string pyval :=
  let kwargs := base_kwargs a in
  let kwargs :=
    match generator with
    | Some g => <["generator" := g]> kwargs
    | None => kwargs
    end in
  match negative_prompt a with
  | Some np => <["negative_prompt" := VStr np]> kwargs
  | None => kwargs
  end.

(** [DiffusersPipeline.generate]; the call itself is recorded.  The log
    lines and the [torch.inference_mode()] scope change nothing the model
    observes and are left out. *)
Definition generate (self : DiffusersPipeline Pipe) (a : GenerateArgs)
    : M Py.pyexc (list Image) :=
  emit (EvGenerate a);;
  generator ←
    match seed a with
    | Some s => g ← call (torch_generator W (device self) s); mret (Some g)
    | None => mret None
    end;
  let kwargs := build_kwargs a generator in
  emit (EvPipelineCall kwargs);;
  call (pipe_call W (pipeline self) kwargs).
End Pipeline.

(** ** server.py *)

(** *** Formatting helpers of the standard library *)

Fixpoint contains (c : ascii) (s : string) : bool :=
  match s with
  | EmptyString => false
  | String d r => (Ascii.eqb c d || contains c r)%bool
  end.

Definition nth_char (alphabet : string) (n : N) : ascii :=
  match String.get (N.to_nat n) alphabet with
  | Some c => c
  | None => "?"%char
  end.

Definition double_quote : ascii := "034"%char.
Definition single_quote : ascii := "'"%char.
Definition backslash : ascii := "\"%char.

(** One character of [repr(s)], for the quote character in use. *)
Definition repr_char (quote c : ascii) : string :=
  let n := N_of_ascii c in
  if (Ascii.eqb c quote || Ascii.eqb c backslash)%bool then String backslash (String c "")
  else if Ascii.eqb c "009" then "\t"
  else if Ascii.eqb c "010" then "\n"
  else if Ascii.eqb c "013" then "\r"
  else if ((n <? 32) || (127 <=? n))%N then
    String backslash
      (String "x" (String (nth_char "0123456789abcdef" (n / 16))
        (String (nth_char "0123456789abcdef" (n mod 16)) "")))
  else String c "".

Fixpoint repr_body (quote : ascii) (s : string) : string :=
  match s with
  | EmptyString => ""
  | String c r => repr_char quote c +:+ repr_body quote r
  end.

(** [repr(s)] of a str: single quotes, unless the text has a single quote
    and no double quote. *)
Definition repr_str (s : string) : string :=
  let quote :=
    if (contains single_quote s && negb (contains double_quote s))%bool
    then double_quote else single_quote in
  String quote (repr_body quote s +:+ String quote "").

Fixpoint join (sep : string) (l : list string) : string :=
  match l with
  | [] => ""
  | [x] => x
  | x :: r => x +:+ sep +:+ join sep r
  end.

(** [str(l)] of a list of str, as an f-string prints it. *)
Definition repr_list (l : list string) : string :=
  "[" +:+ join ", " (map repr_str l) +:+ "]".

Definition b64_alphabet : string :=
  "ABCDEFGHIJKLMNOPQRSTUVWXYZabcdefghijklmnopqrstuvwxyz0123456789+/".

Definition b64_digit (n : N) : ascii := nth_char b64_alphabet n.

(** [base64.b64encode(bs).decode("utf-8")] *)
Fixpoint b64encode (bs : list Byte.byte) : string :=
  match bs with
  | [] => ""
  | [a] =>
      let x := Byte.to_N a in
      String (b64_digit (x / 4)) (String (b64_digit (x mod 4 * 16)) "==")
  | [a; b] =>
      let x := Byte.to_N a in
      let y := Byte.to_N b in
      String (b64_digit (x / 4))
        (String (b64_digit (x mod 4 * 16 + y / 16))
          (String (b64_digit (y mod 16 * 4)) "="))
  | a :: b :: c :: r =>
      let x := Byte.to_N a in
      let y := Byte.to_N b in
      let z := Byte.to_N c in
      String (b64_digit (x / 4))
        (String (b64_digit (x mod 4 * 16 + y / 16))
          (String (b64_digit (y mod 16 * 4 + z / 64))
            (String (b64_digit (z mod 64)) (b64encode r))))
  end%N.

(** *** The request and response models *)

(** The JSON body before validation: every field may be absent. *)
Record RequestBody : Type := {
  body_model : option string;
  body_prompt : option string;
  body_n : option Z;
  body_size : option string;
  body_quality : option string;
  body_response_format : option string;
  body_style : option string
}.

Record ImageGenerationRequest : Type := {
  req_model : string;
  req_prompt : string;
  req_n : Z;
  req_size : string;
  req_quality : string;
  req_response_format : string;
  req_style : string
}.

(** The declarations of the fields: [model] and [prompt] are required,
    [n] has [ge=1, le=10], the others have defaults. *)
Definition validate (b : RequestBody) : option ImageGenerationRequest :=
  match body_model b, body_prompt b with
  | Some m, Some p =>
      let n := default 1 (body_n b) in
      if ((1 <=? n) && (n <=? 10))%bool then
        Some {| req_model := m;
                req_prompt := p;
                req_n := n;
                req_size := default "1024x1024" (body_size b);
                req_quality := default "standard" (body_quality b);
                req_response_format := default "b64_json" (body_response_format b);
                req_style := default "vivid" (body_style b) |}
      else None
  | _, _ => None
  end.

Record ImageData : Type := {
  url : option string;
  b64_json : option string;
  revised_prompt : option string
}.

Record ImageGenerationResponse : Type := {
  created : Z;
  data : list ImageData
}.

(** What the handler raises: an [HTTPException] of its own, or an
    exception it does not catch. *)
Inductive failure : Type :=
| HTTPException (status_code : Z) (detail : string)
| Uncaught (e : Py.pyexc).

(** The module globals [_pipeline] and [_served_model_names]. *)
Record AppState (Pipe : Type) : Type := {
  _pipeline : option (DiffusersPipeline Pipe);
  _served_model_names : list string
}.

Arguments _pipeline {Pipe}.
Arguments _served_model_names {Pipe}.

Definition initial_state {Pipe} : AppState Pipe :=
  {| _pipeline := None; _served_model_names := [] |}.

Definition is_empty {A} (l : list A) : bool :=
  match l with [] => true | _ => false end.

Section Handler.
Context {Image Pipe : Type} (W : World Image Pipe).

Definition model_not_found (model : string) (names : list string) : failure :=
  HTTPException 404
    ("Model '" +:+ model +:+ "' not found. Available: " +:+ repr_list names).

Definition format_not_supported : failure :=
  HTTPException 400 "response_format 'url' not supported, use 'b64_json'".

(** The arguments the handler passes; the others keep their defaults. *)
Definition handler_args (request : ImageGenerationRequest) (w h : Z) : GenerateArgs :=
  {| prompt := req_prompt request;
     num_images := req_n request;
     width := w;
     height := h;
     num_inference_steps := if String.eqb (req_quality request) "hd" then 50 else 30;
     guidance_scale := default_guidance_scale;
     negative_prompt := default_negative_prompt;
     seed := default_seed |}.

Definition encode_image (img : Image) : ImageData :=
  {| url := None; b64_json := Some (b64encode (save_png W img)); revised_prompt := None |}.

(** The [for img in images] loop, with the list [data] it appends to. *)
Fixpoint encode_loop (response_format : string) (images : list Image)
    (data : list ImageData) : failure + list ImageData :=
  match images with
  | [] => inr data
  | img :: rest =>
      if String.eqb response_format "b64_json" then
        encode_loop response_format rest (data ++ [encode_image img])
      else inl format_not_supported
  end.

Definition generate_images (st : AppState Pipe) (request : ImageGenerationRequest)
    : M failure ImageGenerationResponse :=
  match _pipeline st with
  | None => raise (HTTPException 503 "Model not loaded")
  | Some pipeline =>
      let names := _served_model_names st in
      if (negb (is_empty names) && negb (bool_decide (req_model request ∈ names)))%bool
      then raise (model_not_found (req_model request) names)
      else
        '(w, h) ←
          match parse_size (int_max_str_digits W) (req_size request) with
          | inr wh => mret wh
          | inl e =>
              (* except ValueError as e *)
              match Py.exc_cls e with
              | Py.ValueError => raise (HTTPException 400 (Py.exc_str e))
              | _ => raise (Uncaught e)
              end
          end;
        images ←
          try_catch (generate W pipeline (handler_args request w h))
            (fun e =>
               if Py.is_Exception e then raise (HTTPException 500 (Py.exc_str e))
               else raise (Uncaught e));
        match encode_loop (req_response_format request) images [] with
        | inl f => raise f
        | inr data => mret {| created := time_time W; data := data |}
        end
  end.

(** The part of [run_server] that sets the globals. *)
Definition run_server (model_path device precision : string)
    (attention_slicing : bool) (served_model_names : option (list string))
    : M Py.pyexc (AppState Pipe) :=
  p ← init W model_path device precision attention_slicing;
  mret {| _pipeline := Some p;
          _served_model_names := default [] served_model_names |}.
End Handler.

(** The status code the framework answers with. *)
Definition status {A} (r : failure + A) : Z :=
  match r with
  | inr _ => 200
  | inl (HTTPException code _) => code
  | inl (Uncaught _) => 500
  end.

(** ** The accepted sizes, stated without the parser *)

Module Grammar.

Fixpoint all_space (s : string) : bool :=
  match s with
  | EmptyString => true
  | String c r => (Ascii.is_space c && all_space r)%bool
  end.

Fixpoint all_digits (s : string) : bool :=
  match s with
  | EmptyString => true
  | String c r => (Py.is_digit c && all_digits r)%bool
  end.

(** Decimal digits, where one underscore may stand between two digits. *)
Inductive grouped : string -> Prop :=
| grouped_one d : Py.is_digit d = true -> grouped (String d "")
| grouped_digit d s : Py.is_digit d = true -> grouped s -> grouped (String d s)
| grouped_us d s : Py.is_digit d = true -> grouped s -> grouped (String d (String "_" s)).

(** The number the digits of [s] denote, read after [acc]; characters
    that are no digits do not count. *)
Fixpoint digits_value (s : string) (acc : Z) : Z :=
  match s with
  | EmptyString => acc
  | String c r =>
      if Py.is_digit c then digits_value r (10 * acc + Py.digit_value c)
      else digits_value r acc
  end.

Fixpoint count_digits (s : string) : nat :=
  match s with
  | EmptyString => 0%nat
  | String c r => if Py.is_digit c then S (count_digits r) else count_digits r
  end.

(** Where the digit loop stops: at the end, or before a character that
    is neither a digit nor an underscore. *)
Definition stops (rest : string) : Prop :=
  match rest with
  | EmptyString => True
  | String c _ => Py.is_digit c = false /\ Ascii.eqb c "_" = false
  end.

Definition starts_nonspace (s : string) : Prop :=
  match s with
  | EmptyString => True
  | String c _ => Ascii.is_space c = false
  end.

Inductive sign_of : string -> Z -> Prop :=
| sign_none : sign_of "" 1
| sign_plus : sign_of "+" 1
| sign_minus : sign_of "-" (-1).

(** What [int] accepts: white space, a sign, grouped digits, white space;
    with the limit on the number of digits. *)
Definition int_literal (limit : nat) (s : string) (z : Z) : Prop :=
  exists ws1 sg sigma body ws2,
    s = ws1 +:+ sg +:+ body +:+ ws2 /\
    all_space ws1 = true /\ all_space ws2 = true /\
    sign_of sg sigma /\ grouped body /\
    Py.exceeds_limit limit (count_digits body) = false /\
    z = sigma * digits_value body 0.

Definition no_x (s : string) : bool :=
  (negb (contains "x" s) && negb (contains "X" s))%bool.

Definition is_x (c : ascii) : Prop := c = "x"%char \/ c = "X"%char.

(** The strings of ASCII characters: the strings on which [Py.int] and
    [Py.lower] are the built-ins of Python.  Beyond them [int] also
    strips the white space and reads the decimal digits of Unicode,
    which the model does not have. *)
Fixpoint is_ascii (s : string) : bool :=
  match s with
  | EmptyString => true
  | String c r => ((N_of_ascii c <? 128)%N && is_ascii r)%bool
  end.

(** Two [int] literals around exactly one [x] or [X]. *)
Definition size_literal (limit : nat) (s : string) (w h : Z) : Prop :=
  exists a c b,
    s = a +:+ String c b /\ is_x c /\ no_x a = true /\ no_x b = true /\
    int_literal limit a w /\ int_literal limit b h.

(** The specification's [<int>]: a sign and decimal digits, nothing else. *)
Definition plain_int (s : string) (z : Z) : Prop :=
  exists sg sigma ds,
    s = sg +:+ ds /\ sign_of sg sigma /\ ds <> "" /\ all_digits ds = true /\
    z = sigma * digits_value ds 0.

(** The specification's [<int>x<int>]. *)
Definition plain_size (s : string) (w h : Z) : Prop :=
  exists a c b,
    s = a +:+ String c b /\ is_x c /\ no_x a = true /\ no_x b = true /\
    plain_int a w /\ plain_int b h.

End Grammar.

(** ** A concrete world, for running the model *)

(** Nothing fails; the model call returns as many images as asked for,
    numbered in the order of generation. *)
Definition demo_world : World nat unit :=
  {| int_max_str_digits := 4300;
     cuda_is_available := false;
     mps_is_available := false;
     path_exists := fun _ => true;
     from_pretrained := fun _ _ _ _ => inr tt;
     pipe_to := fun p _ => inr p;
     pipe_enable_attention_slicing := fun _ => inr tt;
     pipe_enable_xformers := fun _ => inr tt;
     torch_generator := fun d s => inr (VGenerator d s);
     pipe_call := fun _ kw =>
       match kw !! "num_images_per_prompt" with
       | Some (VInt k) => inr (seq 0 (Z.to_nat k))
       | _ => inr []
       end;
     save_png := fun i => [Byte.x89; Byte.x50; Byte.x4e; Byte.x47] ++
                          match Byte.of_nat i with Some b => [b] | None => [] end;
     time_time := 1700000000 |}.

Definition demo_pipeline : DiffusersPipeline unit :=
  {| model_path := "/models/sd"; device := "cpu"; dtype_ := float32;
     enable_attention_slicing := false; pipeline := tt |}.

Definition demo_state : AppState unit :=
  {| _pipeline := Some demo_pipeline; _served_model_names := ["m1"] |}.

Definition demo_request (size fmt : string) (k : Z) : ImageGenerationRequest :=
  {| req_model := "m1"; req_prompt := "a cat"; req_n := k; req_size := size;
     req_quality := "standard"; req_response_format := fmt; req_style := "vivid" |}.

(** ** Reading a trace *)

(** The calls of [DiffusersPipeline.generate], in order. *)
Definition generate_calls (t : list event) : list GenerateArgs :=
  omap (fun ev => match ev with EvGenerate a => Some a | _ => None end) t.

(** The keyword dictionaries the model was called with, in order. *)
Definition pipeline_calls (t : list event) : list (gmap string pyval) :=
  omap (fun ev => match ev with EvPipelineCall kw => Some kw | _ => None end) t.

(** The loaders that were tried, in order. *)
Definition loaders_tried (t : list event) : list loader :=
  omap (fun ev => match ev with EvFromPretrained l _ _ _ => Some l | _ => None end) t.

(** Every load is from local files, of the given path and dtype. *)
Definition loads_locally (path : string) (dt : dtype) (t : list event) : Prop :=
  Forall (fun ev => match ev with
                    | EvFromPretrained _ p d local => p = path /\ d = dt /\ local = true
                    | _ => True
                    end) t.

(** The contract of the model: as many images as [num_images_per_prompt]. *)
Definition returns_num_images {Image Pipe} (W : World Image Pipe) : Prop :=
  forall pipe kw k images,
    kw !! "num_images_per_prompt" = Some (VInt k) ->
    pipe_call W pipe kw = inr images ->
    length images = Z.to_nat k.

(** The model-name check of the handler lets the request through. *)
Definition model_accepted (names : list string) (model : string) : Prop :=
  names = [] \/ model ∈ names.

Section AfterGeneration.
Context {Image Pipe : Type} (W : World Image Pipe).

(** What the handler answers, from the outcome of the model call. *)
Definition after_generation (request : ImageGenerationRequest)
    (r : Py.result (list Image)) : failure + ImageGenerationResponse :=
  match r with
  | inl e =>
      inl (if Py.is_Exception e then HTTPException 500 (Py.exc_str e) else Uncaught e)
  | inr images =>
      match encode_loop W (req_response_format request) images [] with
      | inl f => inl f
      | inr d => inr {| created := time_time W; data := d |}
      end
  end.
End AfterGeneration.

(** A world whose loaders all fail. *)
Definition broken_world (manifest : bool) : World nat unit :=
  {| int_max_str_digits := 4300;
     cuda_is_available := true;
     mps_is_available := false;
     path_exists := fun _ => manifest;
     from_pretrained := fun l _ _ _ =>
       inl (Py.Raise (Py.OtherException "OSError")
              match l with
              | DiffusionPipeline => "no pipeline"
              | StableDiffusionXLPipeline => "no sdxl weights"
              | StableDiffusionPipeline => "no sd weights"
              end);
     pipe_to := fun p _ => inr p;
     pipe_enable_attention_slicing := fun _ => inr tt;
     pipe_enable_xformers := fun _ => inr tt;
     torch_generator := fun d s => inr (VGenerator d s);
     pipe_call := fun _ _ => inr [];
     save_png := fun _ => [];
     time_time := 0 |}.

Definition demo_body : RequestBody :=
  {| body_model := Some "m1"; body_prompt := Some "a cat"; body_n := Some 2;
     body_size := Some "512x512"; body_quality := None;
     body_response_format := None; body_style := None |}.

(** A request for the unsupported format. *)
Definition url_request : ImageGenerationRequest := demo_request "512x512" "url" 2.

(** A request for a model the demo registry does not hold. *)
Definition stranger_request : ImageGenerationRequest :=
  {| req_model := "m2"; req_prompt := "a cat"; req_n := 1; req_size := "512x512";
     req_quality := "hd"; req_response_format := "b64_json"; req_style := "vivid" |}.

(** A body whose size has a zero width and a negative height. *)
Definition nonpositive_body : RequestBody :=
  {| body_model := Some "m1"; body_prompt := Some "a cat"; body_n := None;
     body_size := Some "0x-5"; body_quality := None;
     body_response_format := None; body_style := None |}.

(** The request that body is validated to. *)
Definition nonpositive_request : ImageGenerationRequest :=
  {| req_model := "m1"; req_prompt := "a cat"; req_n := 1; req_size := "0x-5";
     req_quality := "standard"; req_response_format := "b64_json";
     req_style := "vivid" |}.

(** The outcome of the last loader, as the [try] block hands it on: an
    [Exception] is replaced by the [RuntimeError] of [load_error]. *)
Definition surfaced {Pipe} (path : string) (r : Py.result Pipe) : Py.result Pipe :=
  match r with
  | inl e => inl (if Py.is_Exception e then load_error path e else e)
  | inr p => inr p
  end.

(** ** server.py: the read-only endpoints *)

(** The body of [GET /health]. *)
Record HealthReport : Type := {
  health_status : string;
  model_loaded : bool
}.

Definition health_check {Pipe} (st : AppState Pipe) : HealthReport :=
  {| health_status := "ok";
     model_loaded := match _pipeline st with Some _ => true | None => false end |}.

(** One entry of [GET /v1/models]. *)
Record ModelCard : Type := {
  card_id : string;
  card_object : string;
  card_created : Z;
  card_owned_by : string
}.

Record ModelList : Type := {
  list_object : string;
  list_data : list ModelCard
}.

(** The [for name in _served_model_names] loop with the list [models] it
    appends to; [clock k] is the [k]-th reading of [int(time.time())]. *)
Fixpoint list_models_loop (clock : nat -> Z) (k : nat) (names : list string)
    (models : list ModelCard) : list ModelCard :=
  match names with
  | [] => models
  | name :: rest =>
      list_models_loop clock (S k) rest
        (models ++ [ {| card_id := name; card_object := "model";
                        card_created := clock k; card_owned_by := "diffusers" |} ])
  end.

Definition list_models {Pipe} (clock : nat -> Z) (st : AppState Pipe) : ModelList :=
  {| list_object := "list";
     list_data := list_models_loop clock 0 (_served_model_names st) [] |}.

(** ** server.py: the socket of run_server *)

(** What a path of the host can hold, as far as the calls of [run_server]
    tell the kinds apart (Linux): an [Entry] is anything [os.unlink]
    removes and [os.path.exists] sees (a regular file, a socket, a link to
    an existing file), with its permission bits; a [Directory]; a
    [DanglingLink], a symbolic link whose target is missing. *)
Inductive node : Type :=
| Entry (mode : Z)
| Directory
| DanglingLink.

(** The state of the process and of its host: the trace, and what the
    paths hold. *)
Record SysState : Type := {
  sys_trace : list event;
  sys_files : gmap string node
}.

Definition Sys (A : Type) : Type := SysState -> Py.result A * SysState.

#[global] Instance Sys_ret : MRet Sys := fun _ a s => (inr a, s).
#[global] Instance Sys_bind : MBind Sys := fun _ _ k m s =>
  match m s with
  | (inl e, s') => (inl e, s')
  | (inr a, s') => k a s'
  end.

(** Code of the monad [M] run on the trace of the state. *)
Definition lift_M {A} (m : M Py.pyexc A) : Sys A := fun s =>
  match m (sys_trace s) with
  | (r, t) => (r, {| sys_trace := t; sys_files := sys_files s |})
  end.

(** [try: body finally: cleanup]: the cleanup runs on both ways out, and
    an exception of the cleanup replaces the outcome of the body. *)
Definition try_finally {A} (body : Sys A) (cleanup : Sys unit) : Sys A := fun s =>
  match body s with
  | (r, s') =>
      match cleanup s' with
      | (inl e, s'') => (inl e, s'')
      | (inr _, s'') => (r, s'')
      end
  end.

(** What the host decides. *)
Record Host : Type := {
  (** a reason for [unlink] to fail on an entry it could remove (the
      process may not write to the directory): a [PermissionError] *)
  unlink_refused : string -> option Py.pyexc;
  (** a reason for [bind] to fail other than an occupied path *)
  bind_refused : string -> option Py.pyexc;
  (** the permission bits of a socket file just bound *)
  fresh_socket_mode : Z;
  (** [server.run(sockets=[sock])]: how it ends, and what it leaves *)
  server_run : gmap string node -> Py.result unit * gmap string node
}.

Definition set_files (s : SysState) (files : gmap string node) : SysState :=
  {| sys_trace := sys_trace s; sys_files := files |}.

Definition os_error (cls text : string) (path : string) : Py.pyexc :=
  Py.Raise (Py.OtherException cls) (text +:+ ": " +:+ repr_str path).

(** [os.path.exists(path)]: [False] for a missing path and for a link
    whose target is missing. *)
Definition os_path_exists (path : string) : Sys bool := fun s =>
  (inr match sys_files s !! path with
       | Some (Entry _) | Some Directory => true
       | Some DanglingLink | None => false
       end, s).

(** [os.unlink(path)]: a directory is not removed, and the host may
    refuse; in both cases the path keeps what it holds. *)
Definition os_unlink (H : Host) (path : string) : Sys unit := fun s =>
  match sys_files s !! path with
  | None =>
      (inl (os_error "FileNotFoundError" "[Errno 2] No such file or directory" path), s)
  | Some Directory =>
      (inl (os_error "IsADirectoryError" "[Errno 21] Is a directory" path), s)
  | Some _ =>
      match unlink_refused H path with
      | Some e => (inl e, s)
      | None => (inr tt, set_files s (delete path (sys_files s)))
      end
  end.

(** [sock.bind(path)] on a Unix socket: the path must hold nothing, not
    even a link whose target is missing. *)
Definition sock_bind (H : Host) (path : string) : Sys unit := fun s =>
  match sys_files s !! path with
  | Some _ =>
      (inl (Py.Raise (Py.OtherException "OSError")
              "[Errno 98] Address already in use"), s)
  | None =>
      match bind_refused H path with
      | Some e => (inl e, s)
      | None =>
          (inr tt, set_files s (<[path := Entry (fresh_socket_mode H)]> (sys_files s)))
      end
  end.

(** [os.chmod(path, mode)]; only the bits of an [Entry] are kept in the
    model. *)
Definition os_chmod (path : string) (mode : Z) : Sys unit := fun s =>
  match sys_files s !! path with
  | Some (Entry _) => (inr tt, set_files s (<[path := Entry mode]> (sys_files s)))
  | Some Directory => (inr tt, s)
  | Some DanglingLink | None =>
      (inl (os_error "FileNotFoundError" "[Errno 2] No such file or directory" path), s)
  end.

Definition call_server_run (H : Host) : Sys unit := fun s =>
  match server_run H (sys_files s) with
  | (r, files) => (r, set_files s files)
  end.

(** [if os.path.exists(socket_path): os.unlink(socket_path)] *)
Definition remove_if_exists (H : Host) (socket_path : string) : Sys unit :=
  os_path_exists socket_path ≫= fun found : bool =>
  if found then os_unlink H socket_path else mret tt.

(** [0o666] *)
Definition mode_0o666 : Z := 438.

(** The second half of [run_server]: from the removal of a stale socket
    file to the [finally] block. *)
Definition serve_on_socket (H : Host) (socket_path : string) : Sys unit :=
  remove_if_exists H socket_path;;
  sock_bind H socket_path;;
  os_chmod socket_path mode_0o666;;
  try_finally (call_server_run H) (remove_if_exists H socket_path).

(** The two lines [if os.path.exists(p): os.unlink(p)] leave the path
    empty: it holds nothing, or an entry the host lets the process
    remove. *)
Definition clearable (H : Host) (path : string) (files : gmap string node) : Prop :=
  match files !! path with
  | None => True
  | Some (Entry _) => unlink_refused H path = None
  | Some Directory | Some DanglingLink => False
  end.

(** The whole of [run_server]: the globals, then the socket. *)
Definition run_server_process {Image Pipe} (W : World Image Pipe) (H : Host)
    (model_path socket_path device precision : string) (attention_slicing : bool)
    (served_model_names : option (list string)) : Sys (AppState Pipe) :=
  st ← lift_M (run_server W model_path device precision attention_slicing
                 served_model_names);
  serve_on_socket H socket_path;;
  mret st.

(** ** __main__.py *)

(** The namespace [parser.parse_args()] returns. *)
Record Namespace : Type := {
  arg_model_path : string;
  arg_socket : string;
  arg_device : string;
  arg_precision : string;
  arg_enable_attention_slicing : bool;
  arg_served_model_name : list string
}.

(** How [main] ends: [sys.exit(code)] after printing, a plain return, or
    an exception it does not catch. *)
Inductive Ending : Type :=
| Exit (code : Z) (stdout stderr : string)
| Returned
| Escaped (e : Py.pyexc).

Definition newline : string := String "010" "".

Definition is_KeyboardInterrupt (e : Py.pyexc) : bool :=
  match Py.exc_cls e with
  | Py.BaseOnly name => String.eqb name "KeyboardInterrupt"
  | _ => false
  end.

(** [main], from the call of [run_server] on. *)
Definition main {Image Pipe} (W : World Image Pipe) (H : Host) (args : Namespace)
    : SysState -> Ending * SysState := fun s =>
  match run_server_process W H (arg_model_path args) (arg_socket args)
          (arg_device args) (arg_precision args)
          (arg_enable_attention_slicing args)
          (Some (arg_served_model_name args)) s with
  | (inr _, s') => (Returned, s')
  | (inl e, s') =>
      if is_KeyboardInterrupt e then
        (Exit 0 (newline +:+ "Shutting down..." +:+ newline) "", s')
      else if Py.is_Exception e then
        (Exit 1 "" ("Error: " +:+ Py.exc_str e +:+ newline), s')
      else (Escaped e, s')
  end.

(** A host that lets the server run until it is interrupted. *)
Definition demo_host : Host :=
  {| unlink_refused := fun _ => None;
     bind_refused := fun _ => None;
     fresh_socket_mode := 493;
     server_run := fun files =>
       (inl (Py.Raise (Py.BaseOnly "KeyboardInterrupt") ""), files) |}.

(** A host that does not let the process remove anything. *)
Definition strict_host : Host :=
  {| unlink_refused := fun path =>
       Some (os_error "PermissionError" "[Errno 13] Permission denied" path);
     bind_refused := fun _ => None;
     fresh_socket_mode := 493;
     server_run := fun files => (inr tt, files) |}.

Definition demo_args : Namespace :=
  {| arg_model_path := "/models/sd"; arg_socket := "/run/diffusers.sock";
     arg_device := "auto"; arg_precision := "auto";
     arg_enable_attention_slicing := false; arg_served_model_name := [] |}.

(** A start with a stale socket file left behind. *)
Definition stale_start : SysState :=
  {| sys_trace := []; sys_files := {[ "/run/diffusers.sock" := Entry 420 ]} |}.

(** A start with a directory, or a link to nowhere, at the socket path. *)
Definition directory_start : SysState :=
  {| sys_trace := []; sys_files := {[ "/run/diffusers.sock" := Directory ]} |}.

Definition dangling_start : SysState :=
  {| sys_trace := []; sys_files := {[ "/run/diffusers.sock" := DanglingLink ]} |}.

(** A request for the high quality. *)
Definition hd_request : ImageGenerationRequest :=
  {| req_model := "m1"; req_prompt := "a cat"; req_n := 1; req_size := "512x512";
     req_quality := "hd"; req_response_format := "b64_json"; req_style := "vivid" |}.

Definition seeded_args : GenerateArgs :=
  {| prompt := "a cat"; num_images := 1; width := 64; height := 64;
     num_inference_steps := 30; guidance_scale := 15 # 2;
     negative_prompt := Some "blurry"; seed := Some 42 |}.

(** A world with a CUDA device where the placement on the device, the
    memory-efficient attention or the random generator can be made to fail. *)
Definition faulty_world (to_fails xformers_fails generator_fails : bool)
    : World nat nat :=
  {| int_max_str_digits := 4300;
     cuda_is_available := true;
     mps_is_available := false;
     path_exists := fun _ => true;
     from_pretrained := fun _ _ _ _ => inr 1%nat;
     pipe_to := fun p _ =>
       if to_fails then inl (Py.Raise Py.RuntimeError "CUDA out of memory")
       else inr (S p);
     pipe_enable_attention_slicing := fun _ => inr tt;
     pipe_enable_xformers := fun _ =>
       if xformers_fails
       then inl (Py.Raise (Py.OtherException "ModuleNotFoundError") "No module named 'xformers'")
       else inr tt;
     torch_generator := fun d s =>
       if generator_fails then inl (Py.Raise Py.RuntimeError "no such device")
       else inr (VGenerator d s);
     pipe_call := fun _ _ => inr [7%nat];
     save_png := fun _ => [];
     time_time := 0 |}.

(** A world whose model call runs out of memory. *)
Definition failing_model_world : World nat unit :=
  {| int_max_str_digits := 4300;
     cuda_is_available := false;
     mps_is_available := false;
     path_exists := fun _ => true;
     from_pretrained := fun _ _ _ _ => inr tt;
     pipe_to := fun p _ => inr p;
     pipe_enable_attention_slicing := fun _ => inr tt;
     pipe_enable_xformers := fun _ => inr tt;
     torch_generator := fun d s => inr (VGenerator d s);
     pipe_call := fun _ _ => inl (Py.Raise Py.RuntimeError "out of memory");
     save_png := fun _ => [];
     time_time := 0 |}.

(** A body with the two required fields only. *)
Definition minimal_body : RequestBody :=
  {| body_model := Some "m1"; body_prompt := Some "a cat"; body_n := None;
     body_size := None; body_quality := None;
     body_response_format := None; body_style := None |}.

(** * Properties *)

(** ** Strings *)

Lemma str_app_nil_l (s : string) : "" +:+ s = s.
Proof. reflexivity. Qed.

Lemma str_app_cons (c : ascii) (a b : string) : String c a +:+ b = String c (a +:+ b).
Proof. reflexivity. Qed.

Lemma str_app_nil_r (s : string) : s +:+ "" = s.
Proof. induction s as [|c s IH]; [reflexivity|]. by rewrite str_app_cons, IH. Qed.

Lemma str_app_assoc (a b c : string) : (a +:+ b) +:+ c = a +:+ b +:+ c.
Proof. induction a as [|x a IH]; [reflexivity|]. by rewrite !str_app_cons, IH. Qed.

Lemma contains_app (c : ascii) (a b : string) :
  contains c (a +:+ b) = (contains c a || contains c b)%bool.
Proof.
  induction a as [|x a IH]; [reflexivity|].
  rewrite str_app_cons. simpl. rewrite IH. apply orb_assoc.
Qed.

(** ** Python built-ins *)

(** Case analysis on a character by its eight bits. *)
Ltac by_bits c := destruct c as [[] [] [] [] [] [] [] []]; vm_compute; try done.

Lemma lower_char_class (c : ascii) :
  Ascii.is_space (Py.lower_char c) = Ascii.is_space c /\
  Py.is_digit (Py.lower_char c) = Py.is_digit c /\
  Ascii.eqb (Py.lower_char c) "_" = Ascii.eqb c "_" /\
  Ascii.eqb (Py.lower_char c) "+" = Ascii.eqb c "+" /\
  Ascii.eqb (Py.lower_char c) "-" = Ascii.eqb c "-" /\
  (Py.is_digit c = true -> Py.lower_char c = c).
Proof. by_bits c. Qed.

Lemma lower_char_x (c : ascii) :
  Py.lower_char c = "x"%char <-> Grammar.is_x c.
Proof.
  unfold Grammar.is_x. split.
  - by_bits c; auto.
  - intros [-> | ->]; reflexivity.
Qed.

Lemma lower_app (a b : string) : Py.lower (a +:+ b) = Py.lower a +:+ Py.lower b.
Proof. induction a as [|c a IH]; [reflexivity|]. rewrite str_app_cons. simpl. by rewrite IH. Qed.

Lemma contains_lower_x (s : string) :
  contains "x" (Py.lower s) = negb (Grammar.no_x s).
Proof.
  unfold Grammar.no_x. induction s as [|c s IH]; [reflexivity|].
  simpl. rewrite IH. destruct (contains "x" s), (contains "X" s); by_bits c.
Qed.

Lemma lower_app_inv (s a' b' : string) (x : ascii) :
  Py.lower s = a' +:+ String x b' ->
  exists a c b, s = a +:+ String c b /\ Py.lower a = a' /\
                Py.lower_char c = x /\ Py.lower b = b'.
Proof.
  revert a'. induction s as [|c s IH]; intros a' H.
  - destruct a'; discriminate.
  - destruct a' as [|d a'].
    + rewrite str_app_nil_l in H. simpl in H. injection H as Hc Hs.
      exists "", c, s. by rewrite str_app_nil_l.
    + rewrite str_app_cons in H. simpl in H. injection H as Hc Hs.
      destruct (IH _ Hs) as (a & c' & b & -> & Ha & Hc' & Hb).
      exists (String c a), c', b. rewrite str_app_cons. simpl. by rewrite Hc, Ha.
Qed.

Lemma split_nonempty (sep : ascii) (s : string) : Py.split sep s <> [].
Proof.
  destruct s as [|c s]; simpl; [done|].
  destruct (Ascii.eqb c sep); [done|]. by destruct (Py.split sep s).
Qed.

Lemma split_single (sep : ascii) (a : string) :
  contains sep a = false -> Py.split sep a = [a].
Proof.
  induction a as [|c a IH]; [done|]. simpl.
  intros [Hc Ha]%orb_false_elim. rewrite Ascii.eqb_sym, Hc. by rewrite IH.
Qed.

Lemma split_app (sep : ascii) (a b : string) :
  contains sep a = false ->
  Py.split sep (a +:+ String sep b) = a :: Py.split sep b.
Proof.
  induction a as [|c a IH].
  - intros _. rewrite str_app_nil_l. simpl. by rewrite Ascii.eqb_refl.
  - rewrite str_app_cons. simpl. intros [Hc Ha]%orb_false_elim.
    rewrite Ascii.eqb_sym, Hc. by rewrite IH.
Qed.

Lemma split_inv (sep : ascii) (s p : string) (ps : list string) :
  Py.split sep s = p :: ps ->
  contains sep p = false /\
  match ps with
  | [] => s = p
  | _ :: _ => exists r, s = p +:+ String sep r /\ Py.split sep r = ps
  end.
Proof.
  revert p ps. induction s as [|c s IH]; intros p ps H.
  - simpl in H. by injection H as <- <-.
  - simpl in H. destruct (Ascii.eqb_spec c sep) as [->|Hne].
    + injection H as <- <-. split; [done|].
      pose proof (split_nonempty sep s). destruct (Py.split sep s) eqn:E; [done|].
      exists s. by rewrite str_app_nil_l.
    + destruct (Py.split sep s) as [|p' ps'] eqn:E; [by apply split_nonempty in E|].
      injection H as <- <-. destruct (IH _ _ eq_refl) as [Hp Hps]. split.
      * simpl. rewrite Hp, orb_false_r. apply Ascii.eqb_neq. congruence.
      * destruct ps' as [|q qs]; [by rewrite Hps|].
        destruct Hps as (r & -> & Hr). exists r. by rewrite str_app_cons.
Qed.

Lemma split_two (sep : ascii) (s a b : string) :
  Py.split sep s = [a; b] <->
  s = a +:+ String sep b /\ contains sep a = false /\ contains sep b = false.
Proof.
  split.
  - intros H. destruct (split_inv _ _ _ _ H) as [Ha (r & -> & Hr)].
    destruct (split_inv _ _ _ _ Hr) as [Hb ->]. done.
  - intros (-> & Ha & Hb). by rewrite split_app, split_single.
Qed.

(** ** int: the parser against the grammar *)

Import Grammar.

Lemma digit_class (c : ascii) :
  Py.is_digit c = true ->
  Ascii.is_space c = false /\ Ascii.eqb c "_" = false /\
  Ascii.eqb c "+" = false /\ Ascii.eqb c "-" = false.
Proof. by_bits c. Qed.

Lemma space_class (c : ascii) :
  Ascii.is_space c = true -> Py.is_digit c = false /\ Ascii.eqb c "_" = false.
Proof. by_bits c. Qed.

Lemma underscore_class (c : ascii) :
  Ascii.eqb c "_" = true -> Py.is_digit c = false.
Proof. by_bits c. Qed.

Lemma skip_space_split (s : string) :
  exists ws, s = ws +:+ Py.skip_space s /\ all_space ws = true /\
             starts_nonspace (Py.skip_space s).
Proof.
  induction s as [|c s (ws & Hs & Hws & Hns)]; [by exists ""|].
  simpl. destruct (Ascii.is_space c) eqn:Hc.
  - exists (String c ws). rewrite str_app_cons, <- Hs. simpl. by rewrite Hc, Hws.
  - exists "". simpl. by rewrite Hc.
Qed.

Lemma skip_space_app (ws X : string) :
  all_space ws = true -> starts_nonspace X -> Py.skip_space (ws +:+ X) = X.
Proof.
  induction ws as [|c ws IH].
  - intros _ HX. rewrite str_app_nil_l. destruct X as [|d X]; [done|].
    simpl in *. by rewrite HX.
  - simpl. intros [Hc Hws]%andb_prop HX. rewrite Hc. auto.
Qed.

Lemma skip_space_all (ws : string) :
  all_space ws = true <-> Py.skip_space ws = "".
Proof.
  induction ws as [|c ws IH]; simpl; [done|].
  destruct (Ascii.is_space c); simpl; [done|]. split; discriminate.
Qed.

Lemma all_space_stops (ws : string) : all_space ws = true -> stops ws.
Proof.
  destruct ws as [|c ws]; simpl; [done|].
  intros [Hc _]%andb_prop. by apply space_class.
Qed.

Lemma grouped_head (body : string) :
  grouped body -> exists d r, body = String d r /\ Py.is_digit d = true.
Proof. destruct 1; eauto. Qed.

Lemma grouped_count (body : string) : grouped body -> (1 <= count_digits body)%nat.
Proof. destruct 1; simpl; rewrite H; lia. Qed.

Lemma scan_stop (rest : string) (acc : Z) (n : nat) :
  stops rest -> Py.scan_digits rest false acc n = Some (acc, n, rest).
Proof. destruct rest as [|c r]; simpl; [done|]. by intros [-> ->]. Qed.

Lemma scan_complete (body rest : string) :
  grouped body -> stops rest ->
  forall prev acc n,
    Py.scan_digits (body +:+ rest) prev acc n =
    Some (digits_value body acc, (n + count_digits body)%nat, rest).
Proof.
  intros Hg Hrest. induction Hg as [d Hd|d s Hd Hg IH|d s Hd Hg IH]; intros prev acc n.
  - rewrite str_app_cons, str_app_nil_l. simpl. rewrite Hd.
    rewrite scan_stop by done. do 2 f_equal. f_equal. lia.
  - rewrite str_app_cons. simpl. rewrite Hd, IH. do 2 f_equal. f_equal. lia.
  - rewrite !str_app_cons. simpl. rewrite Hd. simpl. rewrite IH.
    do 2 f_equal. f_equal. lia.
Qed.

Lemma scan_sound (s : string) :
  forall prev acc n v m rest,
    Py.scan_digits s prev acc n = Some (v, m, rest) ->
    exists pre,
      s = pre +:+ rest /\ stops rest /\
      v = digits_value pre acc /\ m = (n + count_digits pre)%nat /\
      (if (prev : bool) then grouped pre
       else pre = "" \/ grouped pre \/ exists g, pre = String "_" g /\ grouped g).
Proof.
  induction s as [|c s IH]; intros prev acc n v m rest H; simpl in H.
  - destruct prev; [done|]. injection H as <- <- <-.
    exists "". split_and!; [done | done | done | simpl; lia | by left].
  - destruct (Py.is_digit c) eqn:Hd.
    + apply IH in H as (pre & -> & Hst & -> & -> & Hpre).
      exists (String c pre). rewrite str_app_cons. simpl. rewrite Hd.
      split_and!; [done | done | done | lia |].
      assert (grouped (String c pre)) as Hg.
      { destruct Hpre as [-> | [Hg | (g & -> & Hg)]];
          [by apply grouped_one | by apply grouped_digit | by apply grouped_us]. }
      destruct prev; auto.
    + destruct (Ascii.eqb c "_") eqn:Hu.
      * destruct prev; [done|].
        apply IH in H as (pre & -> & Hst & -> & -> & Hpre).
        apply Ascii.eqb_eq in Hu as ->.
        exists (String "_" pre). rewrite str_app_cons.
        split_and!; [done | done | done | done |].
        right. right. by exists pre.
      * destruct prev; [done|]. injection H as <- <- <-.
        exists "". split_and!; [done | by simpl | done | simpl; lia | by left].
Qed.

Lemma parse_digits_complete (limit : nat) (sigma : Z) (body ws : string) :
  grouped body -> all_space ws = true ->
  Py.exceeds_limit limit (count_digits body) = false ->
  Py.parse_digits limit sigma (body +:+ ws) = Some (sigma * digits_value body 0).
Proof.
  intros Hg Hws Hlim. unfold Py.parse_digits.
  destruct (grouped_head _ Hg) as (d & r & Hbody & Hd).
  destruct (digit_class _ Hd) as (_ & Hu & _).
  replace (Py.starts_with "_" (body +:+ ws)) with false
    by (by rewrite Hbody, str_app_cons; simpl; rewrite Hu).
  rewrite scan_complete by auto using all_space_stops. simpl.
  pose proof (grouped_count _ Hg).
  destruct (Nat.eqb_spec (count_digits body) 0); [lia|].
  apply skip_space_all in Hws as ->. by rewrite Hlim.
Qed.

Lemma parse_digits_sound (limit : nat) (sigma : Z) (s z : _) :
  Py.parse_digits limit sigma s = Some z ->
  exists body ws,
    s = body +:+ ws /\ grouped body /\ all_space ws = true /\
    Py.exceeds_limit limit (count_digits body) = false /\
    z = sigma * digits_value body 0.
Proof.
  unfold Py.parse_digits. intros H.
  destruct (Py.starts_with "_" s) eqn:Hus; [done|].
  destruct (Py.scan_digits s false 0 0) as [[[v m] rest]|] eqn:Hscan; [|done].
  destruct (Nat.eqb_spec m 0) as [|Hm]; [done|].
  destruct (Py.skip_space rest) eqn:Hrest; [|done].
  destruct (Py.exceeds_limit limit m) eqn:Hlim; [done|]. injection H as <-.
  apply scan_sound in Hscan as (pre & -> & _ & -> & -> & Hpre).
  exists pre, rest. split_and!; [done | | by apply skip_space_all | done | done].
  destruct Hpre as [-> | [Hg | (g & -> & _)]]; [done | done |].
  by rewrite str_app_cons in Hus.
Qed.

Lemma read_sign_inv (s s2 : string) (sigma : Z) :
  Py.read_sign s = (sigma, s2) -> exists sg, s = sg +:+ s2 /\ sign_of sg sigma.
Proof.
  unfold Py.read_sign. destruct s as [|c r].
  - intros [= <- <-]. exists "". split; [done | constructor].
  - destruct (Ascii.eqb_spec c "+") as [->|_].
    { intros [= <- <-]. exists "+". split; [done | constructor]. }
    destruct (Ascii.eqb_spec c "-") as [->|_].
    { intros [= <- <-]. exists "-". split; [done | constructor]. }
    intros [= <- <-]. exists "". split; [done | constructor].
Qed.

Lemma read_sign_digit (d : ascii) (r : string) :
  Py.is_digit d = true -> Py.read_sign (String d r) = (1, String d r).
Proof.
  intros (_ & _ & Hp & Hm)%digit_class. unfold Py.read_sign. by rewrite Hp, Hm.
Qed.

(** [int] succeeds exactly on the literals of the grammar. *)
Lemma parse_int_literal (limit : nat) (s : string) (z : Z) :
  Py.parse_int limit s = Some z <-> int_literal limit s z.
Proof.
  unfold Py.parse_int. split.
  - destruct (skip_space_split s) as (ws1 & Hs & Hws1 & _).
    destruct (Py.read_sign (Py.skip_space s)) as [sigma s2] eqn:Hsign.
    apply read_sign_inv in Hsign as (sg & Hsg & Hsig).
    intros (body & ws2 & -> & Hg & Hws2 & Hlim & ->)%parse_digits_sound.
    exists ws1, sg, sigma, body, ws2. by rewrite <- Hsg.
  - intros (ws1 & sg & sigma & body & ws2 & -> & Hws1 & Hws2 & Hsig & Hg & Hlim & ->).
    destruct (grouped_head _ Hg) as (d & r & Hbody & Hd).
    rewrite skip_space_app; [|done|].
    + destruct Hsig; repeat (rewrite str_app_cons || rewrite str_app_nil_l).
      * rewrite Hbody, str_app_cons, read_sign_digit, <- str_app_cons, <- Hbody by done.
        by apply parse_digits_complete.
      * simpl. by apply parse_digits_complete.
      * simpl. by apply parse_digits_complete.
    + destruct Hsig; repeat (rewrite str_app_cons || rewrite str_app_nil_l); try done.
      rewrite Hbody, str_app_cons. simpl. by apply digit_class.
Qed.

(** A literal has one value. *)
Lemma int_literal_fun (limit : nat) (s : string) (z1 z2 : Z) :
  int_literal limit s z1 -> int_literal limit s z2 -> z1 = z2.
Proof. rewrite <- !parse_int_literal. congruence. Qed.

(** *** [lower] does not change what [int] reads *)

Lemma skip_space_lower (s : string) :
  Py.skip_space (Py.lower s) = Py.lower (Py.skip_space s).
Proof.
  induction s as [|c s IH]; [done|]. simpl.
  destruct (lower_char_class c) as (-> & _). by destruct (Ascii.is_space c).
Qed.

Lemma scan_digits_lower (s : string) :
  forall prev acc n,
    Py.scan_digits (Py.lower s) prev acc n =
    match Py.scan_digits s prev acc n with
    | Some (v, m, rest) => Some (v, m, Py.lower rest)
    | None => None
    end.
Proof.
  induction s as [|c s IH]; intros prev acc n; simpl.
  - by destruct prev.
  - destruct (lower_char_class c) as (_ & -> & -> & _ & _ & Hfix).
    destruct (Py.is_digit c); [by rewrite Hfix, IH|].
    destruct (Ascii.eqb c "_"); destruct prev; by rewrite ?IH.
Qed.

Lemma lower_empty (s : string) : Py.lower s = "" <-> s = "".
Proof. by destruct s. Qed.

Lemma parse_int_lower (limit : nat) (s : string) :
  Py.parse_int limit (Py.lower s) = Py.parse_int limit s.
Proof.
  unfold Py.parse_int. rewrite skip_space_lower.
  assert (forall t sigma, Py.parse_digits limit sigma (Py.lower t) =
                          Py.parse_digits limit sigma t) as Hdig.
  { intros t sigma. unfold Py.parse_digits. rewrite scan_digits_lower.
    replace (Py.starts_with "_" (Py.lower t)) with (Py.starts_with "_" t).
    2:{ destruct t as [|c t]; [done|]. simpl.
        by destruct (lower_char_class c) as (_ & _ & -> & _). }
    destruct (Py.starts_with "_" t); [done|].
    destruct (Py.scan_digits t false 0 0) as [[[v m] rest]|]; [|done].
    rewrite skip_space_lower.
    destruct (Py.skip_space rest); by destruct (m =? 0)%nat. }
  destruct (Py.skip_space s) as [|c r]; [done|].
  unfold Py.read_sign. simpl.
  destruct (lower_char_class c) as (_ & _ & _ & -> & -> & _).
  destruct (Ascii.eqb c "+"); [apply Hdig|].
  destruct (Ascii.eqb c "-"); [apply Hdig|].
  apply (Hdig (String c r)).
Qed.

(** ** parse_size *)

Example parse_size_1024 : parse_size 4300 "1024x1024" = inr (1024, 1024).
Proof. reflexivity. Qed.

Example parse_size_upper : parse_size 4300 "512X768" = inr (512, 768).
Proof. reflexivity. Qed.

Example parse_size_bad : parse_size 4300 "bad" = inl (invalid_size "bad").
Proof. reflexivity. Qed.

Example parse_size_many : parse_size 4300 "1x2x3" = inl (invalid_size "1x2x3").
Proof. reflexivity. Qed.

Example parse_size_empty : parse_size 4300 "" = inl (invalid_size "").
Proof. reflexivity. Qed.

Example parse_size_half : parse_size 4300 "512x" = inl (invalid_size "512x").
Proof. reflexivity. Qed.

Example parse_size_signed : parse_size 4300 "+7x-3" = inr (7, -3).
Proof. reflexivity. Qed.

Example parse_size_double_underscore :
  parse_size 4300 "1__0x2" = inl (invalid_size "1__0x2").
Proof. reflexivity. Qed.

Lemma parse_size_eq (limit : nat) (s : string) :
  parse_size limit s =
  match Py.split "x" (Py.lower s) with
  | [a; b] =>
      match Py.parse_int limit a, Py.parse_int limit b with
      | Some w, Some h => inr (w, h)
      | _, _ => inl (invalid_size s)
      end
  | _ => inl (invalid_size s)
  end.
Proof.
  unfold parse_size.
  destruct (Py.split "x" (Py.lower s)) as [|a [|b [|c l]]]; try reflexivity.
  cbn. unfold Py.int.
  destruct (Py.parse_int limit a); [|reflexivity].
  cbn. by destruct (Py.parse_int limit b).
Qed.

Lemma parse_size_error (limit : nat) (s : string) (e : Py.pyexc) :
  parse_size limit s = inl e -> e = invalid_size s.
Proof.
  rewrite parse_size_eq.
  destruct (Py.split "x" (Py.lower s)) as [|a [|b [|c l]]]; try congruence.
  destruct (Py.parse_int limit a), (Py.parse_int limit b); congruence.
Qed.

Lemma parse_size_complete (limit : nat) (s : string) (w h : Z) :
  size_literal limit s w h -> parse_size limit s = inr (w, h).
Proof.
  intros (a & c & b & -> & Hc & Ha & Hb & Hw & Hh).
  rewrite parse_size_eq, lower_app. simpl.
  apply lower_char_x in Hc as ->.
  rewrite split_app, split_single by (by rewrite contains_lower_x, ?Ha, ?Hb).
  rewrite !parse_int_lower.
  apply parse_int_literal in Hw as ->. by apply parse_int_literal in Hh as ->.
Qed.

Lemma parse_size_sound (limit : nat) (s : string) (w h : Z) :
  parse_size limit s = inr (w, h) -> size_literal limit s w h.
Proof.
  rewrite parse_size_eq.
  destruct (Py.split "x" (Py.lower s)) as [|a' [|b' [|c' l]]] eqn:Hsplit; try done.
  apply split_two in Hsplit as (Hs & Ha' & Hb').
  apply lower_app_inv in Hs as (a & c & b & -> & <- & Hc & <-).
  rewrite !parse_int_lower.
  destruct (Py.parse_int limit a) as [w'|] eqn:Hw; [|done].
  destruct (Py.parse_int limit b) as [h'|] eqn:Hh; [|done].
  intros [= <- <-]. exists a, c, b.
  rewrite contains_lower_x in Ha', Hb'.
  split_and!; [done | by apply lower_char_x | by destruct (no_x a)
              | by destruct (no_x b) | by apply parse_int_literal
              | by apply parse_int_literal].
Qed.

(** *** The specification's plain sizes *)

Lemma sign_no_space (sg : string) (sigma : Z) :
  sign_of sg sigma -> contains " " sg = false /\ count_digits sg = 0%nat.
Proof. destruct 1; by vm_compute. Qed.

Lemma all_digits_grouped (ds : string) :
  ds <> "" -> all_digits ds = true -> grouped ds.
Proof.
  induction ds as [|c ds IH]; [done|]. simpl.
  intros _ [Hc Hds]%andb_prop. destruct ds as [|d ds].
  - by apply grouped_one.
  - apply grouped_digit; auto.
Qed.

Lemma count_digits_app (a b : string) :
  count_digits (a +:+ b) = (count_digits a + count_digits b)%nat.
Proof.
  induction a as [|c a IH]; [done|]. rewrite str_app_cons. simpl.
  destruct (Py.is_digit c); lia.
Qed.

(** A plain integer is a literal of [int], when it is not too long. *)
Lemma plain_int_literal (limit : nat) (s : string) (z : Z) :
  plain_int s z -> Py.exceeds_limit limit (count_digits s) = false ->
  int_literal limit s z.
Proof.
  intros (sg & sigma & ds & -> & Hsg & Hne & Hds & ->) Hlim.
  rewrite count_digits_app in Hlim.
  destruct (sign_no_space _ _ Hsg) as [_ Hcount]. rewrite Hcount in Hlim.
  exists "", sg, sigma, ds, "".
  rewrite str_app_nil_l, str_app_nil_r. split_and!; auto using all_digits_grouped.
Qed.

(** The first half of the specification's sentence holds: a plain size is
    parsed to its pair (under the digit limit of the interpreter). *)
Lemma plain_size_parses (limit : nat) (s : string) (w h : Z) :
  plain_size s w h -> Py.exceeds_limit limit (count_digits s) = false ->
  parse_size limit s = inr (w, h).
Proof.
  intros (a & c & b & -> & Hc & Ha & Hb & Hw & Hh) Hlim.
  apply parse_size_complete. exists a, c, b.
  rewrite count_digits_app in Hlim. simpl in Hlim.
  assert (Py.is_digit c = false) as Hcd by (by destruct Hc as [-> | ->]).
  rewrite Hcd in Hlim.
  assert (forall n m, Py.exceeds_limit limit (n + m) = false ->
            Py.exceeds_limit limit n = false /\ Py.exceeds_limit limit m = false)
    as Hmono.
  { intros n m. unfold Py.exceeds_limit.
    rewrite !andb_false_iff, !Nat.ltb_ge. lia. }
  apply Hmono in Hlim as [Hla Hlb].
  split_and!; auto using plain_int_literal.
Qed.

Lemma plain_int_alphabet (c : ascii) (s : string) (z : Z) :
  Py.is_digit c = false -> c <> "+"%char -> c <> "-"%char ->
  plain_int s z -> contains c s = false.
Proof.
  intros Hd Hp Hm (sg & sigma & ds & -> & Hsg & _ & Hds & _).
  rewrite contains_app. apply orb_false_intro.
  - destruct Hsg; simpl; rewrite ?orb_false_r; [done | |];
      by apply Ascii.eqb_neq.
  - clear Hsg. induction ds as [|d ds IH]; [done|]. simpl in *.
    apply andb_prop in Hds as [Hdd Hds]. rewrite IH, orb_false_r by done.
    apply Ascii.eqb_neq. congruence.
Qed.

Lemma plain_size_alphabet (c : ascii) (s : string) (w h : Z) :
  Py.is_digit c = false -> c <> "+"%char -> c <> "-"%char -> ~ is_x c ->
  plain_size s w h -> contains c s = false.
Proof.
  intros Hd Hp Hm Hx (a & x & b & -> & Hc & _ & _ & Ha & Hb).
  rewrite contains_app. simpl.
  rewrite (plain_int_alphabet c a w), (plain_int_alphabet c b h) by done.
  rewrite orb_false_r. simpl. apply Ascii.eqb_neq. congruence.
Qed.

(** C2, as stated, fails: a size with a blank before the width is not of
    the form [<int>x<int>], and [parse_size] returns a pair for it. *)
Lemma parse_size_reads_padded_size :
  (forall w h, ~ plain_size " 512x512" w h) /\
  parse_size 4300 " 512x512" = inr (512, 512).
Proof.
  split; [|reflexivity].
  intros w h Hplain.
  apply (plain_size_alphabet " ") in Hplain; try done.
  unfold is_x. intros [|]; discriminate.
Qed.

Example parse_size_reads_grouped_digits :
  (forall w h, ~ plain_size "1_0x2" w h) /\ parse_size 4300 "1_0x2" = inr (10, 2).
Proof.
  split; [|reflexivity].
  intros w h Hplain.
  apply (plain_size_alphabet "_") in Hplain; try done.
  unfold is_x. intros [|]; discriminate.
Qed.

(** C2 (amended): for every string [s] of ASCII characters, [parse_size]
    returns [(w, h)] exactly when [s] is [a ++ c ++ b] where [c] is [x] or
    [X], neither [a] nor [b] holds an [x] or [X], and [a] and [b] are
    literals that [int] reads as [w] and [h]: white space, an optional
    sign, decimal digits with single underscores allowed between digits,
    white space, and no more digits than the limit of the interpreter.
    For every other ASCII string it raises [ValueError] with the message
    [Invalid size format: ] followed by the string as given.  Strings with
    other characters are not covered. *)
Theorem parse_size_spec (limit : nat) (s : string) :
  is_ascii s = true ->
  (exists w h, size_literal limit s w h /\ parse_size limit s = inr (w, h)) \/
  ((forall w h, ~ size_literal limit s w h) /\
   parse_size limit s = inl (Py.Raise Py.ValueError ("Invalid size format: " +:+ s))).
Proof.
  intros _. destruct (parse_size limit s) as [e|[w h]] eqn:Hp.
  - right. split.
    + intros w h Hlit. apply parse_size_complete in Hlit. congruence.
    + by rewrite (parse_size_error _ _ _ Hp).
  - left. exists w, h. split; [by apply parse_size_sound | done].
Qed.

Lemma parse_size_spec_witness :
  is_ascii "512x" = true /\
  parse_size 4300 "512x"
    = inl (Py.Raise Py.ValueError ("Invalid size format: " +:+ "512x")).
Proof.
  split; [reflexivity|].
  destruct (parse_size_spec 4300 "512x" eq_refl) as [(w & h & _ & Heq) | [_ Heq]].
  - vm_compute in Heq. discriminate Heq.
  - exact Heq.
Defined.

(** ** The execution configuration *)

Section Resolver.
Context {Image Pipe : Type} (W : World Image Pipe).

Lemma resolve_device_hint (hint : string) :
  hint ∈ ["auto"; "cpu"; "cuda"; "mps"] ->
  _resolve_device W hint ∈ ["cpu"; "cuda"; "mps"].
Proof.
  rewrite !elem_of_cons, elem_of_nil. unfold _resolve_device.
  intros [-> | [-> | [-> | [-> | []]]]]; simpl;
    [destruct (cuda_is_available W), (mps_is_available W) | | |];
    set_solver.
Qed.

Lemma resolve_device_auto :
  _resolve_device W "auto" =
  if cuda_is_available W then "cuda"
  else if mps_is_available W then "mps" else "cpu".
Proof. reflexivity. Qed.

Lemma resolve_device_verbatim (hint : string) :
  hint <> "auto" -> _resolve_device W hint = hint.
Proof.
  intros H. unfold _resolve_device. by destruct (String.eqb_spec hint "auto").
Qed.
End Resolver.

Lemma resolve_dtype_fp16_inv (dev precision : string) :
  _resolve_dtype dev precision = float16 ->
  precision = "fp16" \/ (precision = "auto" /\ (dev = "cuda" \/ dev = "mps")).
Proof.
  unfold _resolve_dtype.
  destruct (String.eqb_spec precision "fp16"); [by left|].
  destruct (String.eqb_spec precision "bf16"); [done|].
  destruct (String.eqb_spec precision "fp32"); [done|].
  destruct (String.eqb_spec precision "auto"); [|done].
  destruct (String.eqb_spec dev "cuda"); [by auto|].
  destruct (String.eqb_spec dev "mps"); [by auto|done].
Qed.

(** C3, as stated, fails: with the hints [cpu] and [fp16] the resolved
    configuration is fp16 on the cpu. *)
Lemma fp16_on_cpu_when_asked :
  "cpu" ∈ ["auto"; "cpu"; "cuda"; "mps"] /\
  _resolve_device demo_world "cpu" = "cpu" /\
  _resolve_dtype (_resolve_device demo_world "cpu") "fp16" = float16.
Proof. split; [set_solver | by split]. Qed.

(** C3 (amended): for every device hint in auto, cpu, cuda, mps the
    resolved device is cpu, cuda or mps; for every precision hint other
    than [fp16], fp16 is chosen only when the resolved device is cuda or
    mps, so never on the cpu; the hint [fp16] itself is followed on every
    device. *)
Theorem fp16_by_default_only_on_gpu {Image Pipe : Type} (W : World Image Pipe)
    (hint precision : string) :
  hint ∈ ["auto"; "cpu"; "cuda"; "mps"] ->
  let dev := _resolve_device W hint in
  dev ∈ ["cpu"; "cuda"; "mps"] /\
  _resolve_dtype dev "fp16" = float16 /\
  (precision <> "fp16" -> _resolve_dtype dev precision = float16 ->
   dev = "cuda" \/ dev = "mps") /\
  (precision <> "fp16" -> dev = "cpu" -> _resolve_dtype dev precision <> float16).
Proof.
  intros Hhint dev. split_and!.
  - by apply resolve_device_hint.
  - reflexivity.
  - intros Hp [? | [_ ?]]%resolve_dtype_fp16_inv; done.
  - intros Hp Hdev [? | [_ [? | ?]]]%resolve_dtype_fp16_inv; congruence.
Qed.

Lemma fp16_by_default_only_on_gpu_witness :
  "auto" ∈ ["auto"; "cpu"; "cuda"; "mps"] /\
  _resolve_dtype (_resolve_device demo_world "auto") "auto" <> float16.
Proof.
  split; [constructor|].
  destruct (fp16_by_default_only_on_gpu demo_world "auto" "auto") as (_ & _ & _ & H);
    [constructor|].
  apply H; [discriminate | reflexivity].
Defined.

(** C4: the hints fp16, bf16 and fp32 give their numeric type; the hint
    auto gives fp16 when the resolved device is cuda or mps and fp32
    otherwise; every other hint gives fp32.  The resolver is a total
    function: no hint makes it raise. *)
Theorem resolve_dtype_spec (dev precision : string) :
  _resolve_dtype dev "fp16" = float16 /\
  _resolve_dtype dev "bf16" = bfloat16 /\
  _resolve_dtype dev "fp32" = float32 /\
  _resolve_dtype "cuda" "auto" = float16 /\
  _resolve_dtype "mps" "auto" = float16 /\
  (dev <> "cuda" -> dev <> "mps" -> _resolve_dtype dev "auto" = float32) /\
  (precision ∉ ["fp16"; "bf16"; "fp32"; "auto"] ->
   _resolve_dtype dev precision = float32).
Proof.
  split_and!; try reflexivity.
  - intros Hc Hm. unfold _resolve_dtype. simpl.
    by destruct (String.eqb_spec dev "cuda"), (String.eqb_spec dev "mps").
  - rewrite !not_elem_of_cons. intros (H1 & H2 & H3 & H4 & _).
    unfold _resolve_dtype.
    destruct (String.eqb_spec precision "fp16"); [done|].
    destruct (String.eqb_spec precision "bf16"); [done|].
    destruct (String.eqb_spec precision "fp32"); [done|].
    by destruct (String.eqb_spec precision "auto").
Qed.

Lemma resolve_dtype_spec_witness :
  _resolve_dtype "cpu" "auto" = float32 /\ _resolve_dtype "cuda" "fp64" = float32.
Proof.
  destruct (resolve_dtype_spec "cpu" "auto") as (_ & _ & _ & _ & _ & Hauto & _).
  destruct (resolve_dtype_spec "cuda" "fp64") as (_ & _ & _ & _ & _ & _ & Hother).
  split.
  - apply Hauto; discriminate.
  - apply Hother. rewrite !not_elem_of_cons.
    split_and!; try discriminate. apply not_elem_of_nil.
Defined.

(** ** The handler *)

Section HandlerRun.
Context {Image Pipe : Type} (W : World Image Pipe).

Lemma encode_loop_b64 (images : list Image) (acc : list ImageData) :
  encode_loop W "b64_json" images acc = inr (acc ++ map (encode_image W) images).
Proof.
  revert acc. induction images as [|img rest IH]; intros acc; simpl.
  - by rewrite List.app_nil_r.
  - by rewrite IH, <- List.app_assoc.
Qed.

Lemma encode_loop_other (fmt : string) (images : list Image) (acc : list ImageData) :
  fmt <> "b64_json" ->
  encode_loop W fmt images acc =
  match images with [] => inr acc | _ :: _ => inl format_not_supported end.
Proof.
  intros Hfmt. destruct images as [|img rest]; [done|]. simpl.
  by destruct (String.eqb_spec fmt "b64_json").
Qed.

(** Whatever the format, a list that comes out of the loop is the list
    of the encoded images, in their order. *)
Lemma encode_loop_data (fmt : string) (images : list Image) (d : list ImageData) :
  encode_loop W fmt images [] = inr d -> d = map (encode_image W) images.
Proof.
  destruct (String.eqb_spec fmt "b64_json") as [->|Hne].
  - rewrite encode_loop_b64. by intros [= <-].
  - rewrite encode_loop_other by done. destruct images; [by intros [= <-]|done].
Qed.

Lemma model_check (names : list string) (model : string) :
  (negb (is_empty names) && negb (bool_decide (model ∈ names)))%bool = false <->
  model_accepted names model.
Proof.
  unfold model_accepted. destruct names as [|x l]; simpl.
  - split; auto.
  - rewrite negb_false_iff, bool_decide_eq_true. split; [by auto|].
    by intros [? | ?].
Qed.

(** One run of the handler, case by case. *)
Lemma generate_images_run (st : AppState Pipe) (request : ImageGenerationRequest) :
  run (generate_images W st request) =
  match _pipeline st with
  | None => (inl (HTTPException 503 "Model not loaded"), [])
  | Some p =>
      let names := _served_model_names st in
      if (negb (is_empty names) && negb (bool_decide (req_model request ∈ names)))%bool
      then (inl (model_not_found (req_model request) names), [])
      else
        match parse_size (int_max_str_digits W) (req_size request) with
        | inl _ =>
            (inl (HTTPException 400 ("Invalid size format: " +:+ req_size request)), [])
        | inr (w, h) =>
            let a := handler_args request w h in
            let kw := build_kwargs a None in
            (after_generation W request (pipe_call W (pipeline p) kw),
             [EvGenerate a; EvPipelineCall kw])
        end
  end.
Proof.
  unfold generate_images, run.
  destruct (_pipeline st) as [p|]; [|reflexivity]. simpl.
  destruct (negb (is_empty (_served_model_names st)) && _)%bool; [reflexivity|].
  destruct (parse_size _ _) as [e|[w h]] eqn:Hsize.
  - apply parse_size_error in Hsize as ->. reflexivity.
  - unfold mbind, M_bind, mret, M_ret, try_catch, generate, emit, call. simpl.
    unfold after_generation.
    destruct (pipe_call W (pipeline p) _) as [e|images]; simpl.
    + by destruct (Py.is_Exception e).
    + by destruct (encode_loop W _ images []).
Qed.
End HandlerRun.

Lemma build_kwargs_num_images (a : GenerateArgs) (generator : option pyval) :
  build_kwargs a generator !! "num_images_per_prompt" = Some (VInt (num_images a)).
Proof.
  unfold build_kwargs, base_kwargs.
  destruct generator, (negative_prompt a); by simplify_map_eq.
Qed.

Section HandlerClaims.
Context {Image Pipe : Type} (W : World Image Pipe).

(** What reaches the model, in terms of the request alone. *)
Lemma generate_images_calls (st : AppState Pipe) (request : ImageGenerationRequest) :
  (generate_calls (run (generate_images W st request)).2 = [] /\
   pipeline_calls (run (generate_images W st request)).2 = []) \/
  exists w h,
    parse_size (int_max_str_digits W) (req_size request) = inr (w, h) /\
    generate_calls (run (generate_images W st request)).2
      = [handler_args request w h] /\
    pipeline_calls (run (generate_images W st request)).2
      = [build_kwargs (handler_args request w h) None].
Proof.
  rewrite generate_images_run.
  destruct (_pipeline st) as [p|]; [|by left]. simpl.
  destruct (negb _ && _)%bool; [by left|].
  destruct (parse_size _ _) as [e|[w h]]; [by left|].
  right. by exists w, h.
Qed.

(** C1 (amended): a request whose [response_format] is not [b64_json],
    and that passes the readiness, model-name and size checks, does reach
    the model: [generate] is called once, with the arguments of the
    request, and the format is looked at only afterwards.  The answer is
    400 when the call returns at least one image, and 500 when the call
    raises an [Exception]. *)
Theorem format_checked_after_generation (st : AppState Pipe)
    (request : ImageGenerationRequest) (p : DiffusersPipeline Pipe) (w h : Z) :
  _pipeline st = Some p ->
  model_accepted (_served_model_names st) (req_model request) ->
  parse_size (int_max_str_digits W) (req_size request) = inr (w, h) ->
  req_response_format request <> "b64_json" ->
  let r := run (generate_images W st request) in
  let a := handler_args request w h in
  generate_calls r.2 = [a] /\
  (forall e, pipe_call W (pipeline p) (build_kwargs a None) = inl e ->
             Py.is_Exception e = true ->
             r.1 = inl (HTTPException 500 (Py.exc_str e))) /\
  (forall img rest, pipe_call W (pipeline p) (build_kwargs a None) = inr (img :: rest) ->
             r.1 = inl format_not_supported /\ status r.1 = 400).
Proof.
  intros Hp Hm Hsize Hfmt r a. subst r a.
  rewrite generate_images_run, Hp. cbv beta iota zeta.
  apply model_check in Hm as ->. rewrite Hsize. cbn [fst snd]. split_and!.
  - reflexivity.
  - intros e -> He. simpl. by rewrite He.
  - intros img rest ->. simpl.
    by destruct (String.eqb_spec (req_response_format request) "b64_json").
Qed.

(** C5: when the readiness, model-name and size checks pass, [generate]
    is called, once, and the step count it is given is 50 when [quality]
    is [hd] and 30 for every other value; no call of [generate] has
    another step count; an absent [quality] is one of the other values. *)
Theorem steps_follow_quality (st : AppState Pipe) (request : ImageGenerationRequest) :
  (forall p w h,
     _pipeline st = Some p ->
     model_accepted (_served_model_names st) (req_model request) ->
     parse_size (int_max_str_digits W) (req_size request) = inr (w, h) ->
     exists a,
       generate_calls (run (generate_images W st request)).2 = [a] /\
       (req_quality request = "hd" -> num_inference_steps a = 50) /\
       (req_quality request <> "hd" -> num_inference_steps a = 30)) /\
  Forall (fun a =>
            (req_quality request = "hd" -> num_inference_steps a = 50) /\
            (req_quality request <> "hd" -> num_inference_steps a = 30))
         (generate_calls (run (generate_images W st request)).2) /\
  (forall b, validate b = Some request -> body_quality b = None ->
             req_quality request <> "hd").
Proof.
  split_and!.
  - intros p w h Hp Hm Hsize. exists (handler_args request w h).
    rewrite generate_images_run, Hp. cbv beta iota zeta.
    apply model_check in Hm as ->. rewrite Hsize. split; [reflexivity|]. simpl.
    by destruct (String.eqb_spec (req_quality request) "hd").
  - destruct (generate_images_calls st request) as [[-> _] | (w & h & _ & -> & _)];
      [constructor|].
    constructor; [|constructor]. simpl.
    by destruct (String.eqb_spec (req_quality request) "hd").
  - intros b Hb Hq. unfold validate in Hb.
    destruct (body_model b), (body_prompt b); try done.
    destruct (_ && _)%bool; [|done]. injection Hb as <-. simpl. by rewrite Hq.
Qed.

(** C6: with the runtime loaded, a non-empty registry that does not hold
    the model of the request gives 404, and nothing is called; with an
    empty registry (or a model of the registry) the answer is never 404. *)
Theorem model_allow_list (st : AppState Pipe) (request : ImageGenerationRequest)
    (p : DiffusersPipeline Pipe) :
  _pipeline st = Some p ->
  let r := run (generate_images W st request) in
  (_served_model_names st <> [] ->
   req_model request ∉ _served_model_names st ->
   status r.1 = 404 /\ r.2 = []) /\
  (model_accepted (_served_model_names st) (req_model request) -> status r.1 <> 404).
Proof.
  intros Hp r. subst r. rewrite generate_images_run, Hp. simpl. split.
  - intros Hne Hnot.
    destruct (negb _ && _)%bool eqn:Hcheck; [done|].
    apply model_check in Hcheck as [? | ?]; done.
  - intros Hm. apply model_check in Hm as ->.
    destruct (parse_size _ _) as [e|[w h]]; [done|]. simpl.
    unfold after_generation.
    destruct (pipe_call _ _ _) as [e|images]; [by destruct (Py.is_Exception e)|].
    destruct (String.eqb_spec (req_response_format request) "b64_json") as [->|Hne].
    + by rewrite encode_loop_b64.
    + rewrite encode_loop_other by done. by destruct images.
Qed.

Lemma validate_n (b : RequestBody) (request : ImageGenerationRequest) :
  validate b = Some request -> 1 <= req_n request <= 10.
Proof.
  unfold validate. destruct (body_model b), (body_prompt b); try done.
  destruct (_ && _)%bool eqn:Hn; [|done]. intros [= <-]. simpl. lia.
Qed.

(** C7: in a 200 answer, [data] is the list of the encoded images, one
    entry per image and in the order of the images the model returned;
    when the model returns as many images as it is asked for, there are
    [n] of them. *)
Theorem data_follows_images (st : AppState Pipe) (b : RequestBody)
    (request : ImageGenerationRequest) (resp : ImageGenerationResponse)
    (t : list event) :
  validate b = Some request ->
  returns_num_images W ->
  run (generate_images W st request) = (inr resp, t) ->
  exists p kw images,
    _pipeline st = Some p /\ pipeline_calls t = [kw] /\
    pipe_call W (pipeline p) kw = inr images /\
    data resp = map (encode_image W) images /\
    Z.of_nat (length (data resp)) = req_n request.
Proof.
  intros Hb Hcontract. rewrite generate_images_run.
  destruct (_pipeline st) as [p|]; [|done]. simpl.
  destruct (negb _ && _)%bool; [done|].
  destruct (parse_size _ _) as [e|[w h]]; [done|]. simpl.
  unfold after_generation.
  destruct (pipe_call _ _ _) as [e|images] eqn:Hcall; [done|].
  destruct (encode_loop _ _ _ _) as [f|d] eqn:Hloop; [done|].
  intros [= <- <-]. apply encode_loop_data in Hloop as ->.
  exists p, (build_kwargs (handler_args request w h) None), images.
  split_and!; try done. simpl. rewrite length_map.
  rewrite (Hcontract _ _ _ _
             (build_kwargs_num_images (handler_args request w h) None) Hcall).
  simpl. apply validate_n in Hb. lia.
Qed.

(** C8 (amended): every call of [generate] for an accepted request has
    [num_images] between 1 and 10 and 30 or 50 steps; its width and
    height are the two integers [parse_size] read from [size], whatever
    their sign. *)
Theorem generate_arguments (st : AppState Pipe) (b : RequestBody)
    (request : ImageGenerationRequest) :
  validate b = Some request ->
  Forall (fun a =>
            1 <= num_images a <= 10 /\
            (num_inference_steps a = 30 \/ num_inference_steps a = 50) /\
            0 < num_inference_steps a /\
            parse_size (int_max_str_digits W) (req_size request)
              = inr (width a, height a))
         (generate_calls (run (generate_images W st request)).2).
Proof.
  intros Hb%validate_n.
  destruct (generate_images_calls st request) as [[-> _] | (w & h & Hsize & -> & _)];
    [constructor|].
  constructor; [|constructor]. simpl.
  destruct (String.eqb (req_quality request) "hd"); split_and!; auto; lia.
Qed.

(** C10: every call of [generate] made by the handler leaves the seed
    and the negative prompt out and has the guidance scale 7.5 (the
    rational 15/2); so the model is called without [generator] and
    without [negative_prompt]. *)
Theorem api_generation_unseeded (st : AppState Pipe) (request : ImageGenerationRequest) :
  let t := (run (generate_images W st request)).2 in
  Forall (fun a => seed a = None /\ negative_prompt a = None /\
                   guidance_scale a = 15 # 2)
         (generate_calls t) /\
  Forall (fun kw : gmap string pyval =>
            kw !! "generator" = None /\ kw !! "negative_prompt" = None /\
            kw !! "guidance_scale" = Some (VFloat (15 # 2)))
         (pipeline_calls t).
Proof.
  intros t. subst t.
  destruct (generate_images_calls st request) as [[-> ->] | (w & h & _ & -> & ->)].
  - split; constructor.
  - split; (constructor; [|constructor]); by split_and!.
Qed.
End HandlerClaims.

Lemma steps_follow_quality_witness :
  (exists a,
     generate_calls (run (generate_images demo_world demo_state hd_request)).2 = [a] /\
     num_inference_steps a = 50) /\
  (exists a,
     generate_calls (run (generate_images demo_world demo_state
                            (demo_request "512x512" "b64_json" 2))).2 = [a] /\
     num_inference_steps a = 30).
Proof.
  split.
  - destruct (steps_follow_quality demo_world demo_state hd_request) as (Hcall & _).
    destruct (Hcall demo_pipeline 512 512 eq_refl
                (or_intror (list_elem_of_here "m1" [])) eq_refl)
      as (a & Hcalls & Hhd & _).
    exists a. split; [exact Hcalls | exact (Hhd eq_refl)].
  - destruct (steps_follow_quality demo_world demo_state
                (demo_request "512x512" "b64_json" 2)) as (Hcall & _).
    destruct (Hcall demo_pipeline 512 512 eq_refl
                (or_intror (list_elem_of_here "m1" [])) eq_refl)
      as (a & Hcalls & _ & Hstd).
    exists a. split; [exact Hcalls | apply Hstd; discriminate].
Defined.

(** *** The handler on the demo world *)

Lemma demo_world_contract : returns_num_images demo_world.
Proof.
  intros pipe kw k images Hk. simpl. rewrite Hk. intros [= <-]. apply length_seq.
Qed.

(** C1, as stated, fails: the request for the format [url] passes the
    three checks, and [generate] is called for it before the 400. *)
Lemma url_request_reaches_the_model :
  req_response_format url_request <> "b64_json" /\
  _pipeline demo_state = Some demo_pipeline /\
  model_accepted (_served_model_names demo_state) (req_model url_request) /\
  parse_size (int_max_str_digits demo_world) (req_size url_request) = inr (512, 512) /\
  generate_calls (run (generate_images demo_world demo_state url_request)).2
    = [handler_args url_request 512 512] /\
  status (run (generate_images demo_world demo_state url_request)).1 = 400.
Proof.
  split_and!; try reflexivity; [discriminate|]. right. constructor.
Qed.

Lemma format_checked_after_generation_witness :
  generate_calls (run (generate_images demo_world demo_state url_request)).2
    = [handler_args url_request 512 512] /\
  status (run (generate_images demo_world demo_state url_request)).1 = 400.
Proof.
  destruct (format_checked_after_generation demo_world demo_state url_request
              demo_pipeline 512 512) as (Hcalls & _ & H400);
    [reflexivity | right; constructor | reflexivity | discriminate |].
  split; [exact Hcalls|].
  exact (proj2 (H400 0%nat [1%nat] eq_refl)).
Defined.

Lemma model_allow_list_witness :
  status (run (generate_images demo_world demo_state stranger_request)).1 = 404 /\
  (run (generate_images demo_world demo_state stranger_request)).2 = [].
Proof.
  destruct (model_allow_list demo_world demo_state stranger_request demo_pipeline)
    as [H404 _]; [reflexivity|].
  apply H404; [discriminate|].
  intros Hin. apply (list_elem_of_singleton "m2" "m1") in Hin. discriminate.
Defined.

Lemma data_follows_images_witness :
  exists p kw images,
    _pipeline demo_state = Some p /\
    pipeline_calls (run (generate_images demo_world demo_state
                           (demo_request "512x512" "b64_json" 2))).2 = [kw] /\
    pipe_call demo_world (pipeline p) kw = inr images /\
    data {| created := 1700000000;
            data := map (encode_image demo_world) [0%nat; 1%nat] |}
      = map (encode_image demo_world) images /\
    Z.of_nat (length (map (encode_image demo_world) [0%nat; 1%nat])) = 2.
Proof.
  apply (data_follows_images demo_world demo_state demo_body
           (demo_request "512x512" "b64_json" 2)
           {| created := 1700000000;
              data := map (encode_image demo_world) [0%nat; 1%nat] |});
    [reflexivity | apply demo_world_contract | reflexivity].
Defined.

(** C8, as stated, fails: the accepted body with the size [0x-5] makes the
    handler call [generate] with width 0 and height -5. *)
Lemma nonpositive_size_reaches_the_model :
  validate nonpositive_body = Some nonpositive_request /\
  generate_calls (run (generate_images demo_world demo_state nonpositive_request)).2
    = [handler_args nonpositive_request 0 (-5)] /\
  ~ (0 < width (handler_args nonpositive_request 0 (-5))) /\
  ~ (0 < height (handler_args nonpositive_request 0 (-5))).
Proof. split_and!; try reflexivity; simpl; lia. Qed.

Lemma generate_arguments_witness :
  Forall (fun a =>
            1 <= num_images a <= 10 /\
            (num_inference_steps a = 30 \/ num_inference_steps a = 50) /\
            0 < num_inference_steps a /\
            parse_size (int_max_str_digits demo_world) "512x512"
              = inr (width a, height a))
         (generate_calls (run (generate_images demo_world demo_state
                                 (demo_request "512x512" "b64_json" 2))).2).
Proof.
  apply (generate_arguments demo_world demo_state demo_body
           (demo_request "512x512" "b64_json" 2)).
  reflexivity.
Defined.

Example scenario_two_cats :
  run (generate_images demo_world demo_state (demo_request "512x512" "b64_json" 2)) =
  (inr {| created := 1700000000;
          data := [ {| url := None; b64_json := Some "iVBORwA="; revised_prompt := None |};
                    {| url := None; b64_json := Some "iVBORwE="; revised_prompt := None |} ] |},
   [EvGenerate (handler_args (demo_request "512x512" "b64_json" 2) 512 512);
    EvPipelineCall (build_kwargs (handler_args (demo_request "512x512" "b64_json" 2) 512 512) None)]).
Proof. reflexivity. Qed.

Example scenario_bad_size :
  run (generate_images demo_world demo_state (demo_request "bad" "b64_json" 1)) =
  (inl (HTTPException 400 "Invalid size format: bad"), []).
Proof. reflexivity. Qed.

Example scenario_not_loaded :
  run (generate_images demo_world initial_state (demo_request "512x512" "b64_json" 1)) =
  (inl (HTTPException 503 "Model not loaded"), []).
Proof. reflexivity. Qed.

Example scenario_unknown_model :
  run (generate_images demo_world demo_state stranger_request) =
  (inl (HTTPException 404 "Model 'm2' not found. Available: ['m1']"), []).
Proof. reflexivity. Qed.

(** ** Loading the model *)

Lemma bind_run {E A B} (m : M E A) (k : A -> M E B) :
  run (m ≫= k) =
  match run m with
  | (inl e, t) => (inl e, t)
  | (inr a, t) => k a t
  end.
Proof. reflexivity. Qed.

Section Loading.
Context {Image Pipe : Type} (W : World Image Pipe).

(** The [try] block of [_load_pipeline], case by case. *)
Lemma load_attempts_run (path : string) (dt : dtype) :
  run (load_attempts W path dt) =
  if path_exists W (os_path_join path "model_index.json") then
    (surfaced path (from_pretrained W DiffusionPipeline path dt true),
     [EvFromPretrained DiffusionPipeline path dt true])
  else
    match from_pretrained W StableDiffusionXLPipeline path dt true with
    | inr p => (inr p, [EvFromPretrained StableDiffusionXLPipeline path dt true])
    | inl e1 =>
        if Py.is_Exception e1 then
          (surfaced path (from_pretrained W StableDiffusionPipeline path dt true),
           [EvFromPretrained StableDiffusionXLPipeline path dt true;
            EvFromPretrained StableDiffusionPipeline path dt true])
        else (inl e1, [EvFromPretrained StableDiffusionXLPipeline path dt true])
    end.
Proof.
  unfold run, load_attempts, try_except_Exception, try_catch, load_with,
    surfaced, raise, call, emit, mbind, M_bind.
  destruct (path_exists W _); simpl.
  - destruct (from_pretrained W DiffusionPipeline path dt true) as [e|p]; [|done].
    by destruct (Py.is_Exception e).
  - destruct (from_pretrained W StableDiffusionXLPipeline path dt true) as [e1|p];
      [|done].
    destruct (Py.is_Exception e1) eqn:He1; simpl; [|by rewrite He1].
    destruct (from_pretrained W StableDiffusionPipeline path dt true) as [e2|p];
      [|done].
    by destruct (Py.is_Exception e2).
Qed.

(** After the [try] block nothing is loaded any more, and a failure of
    the block is the failure of [_load_pipeline]. *)
Lemma load_pipeline_run (path dev : string) (dt : dtype) (slicing : bool) :
  exists rest,
    (run (_load_pipeline W path dev dt slicing)).2
      = (run (load_attempts W path dt)).2 ++ rest /\
    loaders_tried rest = [] /\
    (forall e, (run (load_attempts W path dt)).1 = inl e ->
               (run (_load_pipeline W path dev dt slicing)).1 = inl e /\ rest = []).
Proof.
  unfold _load_pipeline. rewrite bind_run.
  destruct (run (load_attempts W path dt)) as [[e|p] t1]; simpl.
  { exists []. by rewrite List.app_nil_r. }
  unfold try_except_Exception, try_catch, raise, call, emit, mbind, M_bind,
    mret, M_ret. simpl.
  destruct (pipe_to W p dev) as [e|p']; simpl.
  { eexists. split_and!; [reflexivity | done | done]. }
  destruct slicing; simpl.
  - destruct (pipe_enable_attention_slicing W p') as [e|[]]; simpl.
    { eexists. rewrite <- List.app_assoc. split_and!; [reflexivity | done | done]. }
    destruct (String.eqb dev "cuda"); simpl.
    + destruct (pipe_enable_xformers W p') as [e|[]]; simpl;
        [destruct (Py.is_Exception e); simpl|];
        eexists; rewrite <- !List.app_assoc;
        (split_and!; [reflexivity | done | done]).
    + eexists. rewrite <- !List.app_assoc. split_and!; [reflexivity | done | done].
  - destruct (String.eqb dev "cuda"); simpl.
    + destruct (pipe_enable_xformers W p') as [e|[]]; simpl;
        [destruct (Py.is_Exception e); simpl|];
        eexists; rewrite <- ?List.app_assoc;
        (split_and!; [reflexivity | done | done]).
    + eexists. split_and!; [reflexivity | done | done].
Qed.

(** The constructor hands on what [_load_pipeline] does. *)
Lemma init_run (path hint precision : string) (slicing : bool) :
  let dev := _resolve_device W hint in
  let dt := _resolve_dtype dev precision in
  (run (init W path hint precision slicing)).2
    = (run (_load_pipeline W path dev dt slicing)).2 /\
  (forall e, (run (_load_pipeline W path dev dt slicing)).1 = inl e ->
             (run (init W path hint precision slicing)).1 = inl e).
Proof.
  intros dev dt. unfold init. fold dev. fold dt. rewrite bind_run.
  destruct (run (_load_pipeline W path dev dt slicing)) as [[e|p] t]; simpl.
  - split; [done|]. by intros e0 [= <-].
  - split; [done|]. intros e [=].
Qed.

Lemma loaders_tried_app (t1 t2 : list event) :
  loaders_tried (t1 ++ t2) = loaders_tried t1 ++ loaders_tried t2.
Proof. apply omap_app. Qed.
End Loading.

Lemma no_loader_loads_locally (path : string) (dt : dtype) (t : list event) :
  loaders_tried t = [] -> loads_locally path dt t.
Proof.
  unfold loads_locally. induction t as [|ev t IH]; [constructor|].
  destruct ev; simpl; try discriminate; intros Ht; constructor; auto.
Qed.

Example load_with_manifest_fails :
  run (init (broken_world true) "/models/sd" "cpu" "fp32" true) =
  (inl (Py.Raise Py.RuntimeError
          "Failed to load diffusers model from /models/sd: no pipeline"),
   [EvFromPretrained DiffusionPipeline "/models/sd" float32 true]).
Proof. reflexivity. Qed.

Example load_on_demo_world :
  run (run_server demo_world "/models/sd" "auto" "auto" true (Some ["m1"])) =
  (inr {| _pipeline := Some {| model_path := "/models/sd"; device := "cpu";
                               dtype_ := float32; enable_attention_slicing := true;
                               pipeline := tt |};
          _served_model_names := ["m1"] |},
   [EvFromPretrained DiffusionPipeline "/models/sd" float32 true; EvTo "cpu";
    EvEnableAttentionSlicing]).
Proof. reflexivity. Qed.

(** * Further properties of the code *)

(** ** pipeline.py *)

Section PipelineProps.
Context {Image Pipe : Type} (W : World Image Pipe).

(** X1: the resolved device is never [auto], and resolving it again
    changes nothing. *)
Theorem resolve_device_settles (hint : string) :
  _resolve_device W hint <> "auto" /\
  _resolve_device W (_resolve_device W hint) = _resolve_device W hint.
Proof.
  destruct (String.eqb_spec hint "auto") as [->|Hne].
  - rewrite resolve_device_auto.
    destruct (cuda_is_available W), (mps_is_available W); by split.
  - rewrite !resolve_device_verbatim by done. by split.
Qed.

Lemma load_attempts_loaded (path : string) (dt : dtype) (p0 : Pipe) :
  (run (load_attempts W path dt)).1 = inr p0 ->
  exists l, from_pretrained W l path dt true = inr p0.
Proof.
  rewrite load_attempts_run. unfold surfaced.
  destruct (path_exists W _).
  { destruct (from_pretrained W DiffusionPipeline path dt true) eqn:E; [done|].
    intros [= <-]. eauto. }
  destruct (from_pretrained W StableDiffusionXLPipeline path dt true) as [e1|p] eqn:E1.
  - destruct (Py.is_Exception e1); [|done].
    destruct (from_pretrained W StableDiffusionPipeline path dt true) eqn:E2; [done|].
    intros [= <-]. eauto.
  - intros [= <-]. eauto.
Qed.

(** The steps of [_load_pipeline] after the [try] block, case by case. *)
Lemma load_pipeline_steps (path dev : string) (dt : dtype) (slicing : bool) :
  run (_load_pipeline W path dev dt slicing) =
  match run (load_attempts W path dt) with
  | (inl e, t) => (inl e, t)
  | (inr p0, t) =>
      match pipe_to W p0 dev with
      | inl e => (inl e, t ++ [EvTo dev])
      | inr p =>
          let t1 := t ++ [EvTo dev] in
          let after_slicing :=
            if slicing
            then (pipe_enable_attention_slicing W p, t1 ++ [EvEnableAttentionSlicing])
            else (inr tt, t1) in
          match after_slicing with
          | (inl e, t2) => (inl e, t2)
          | (inr _, t2) =>
              if String.eqb dev "cuda" then
                match pipe_enable_xformers W p with
                | inl e =>
                    if Py.is_Exception e then (inr p, t2 ++ [EvEnableXformers])
                    else (inl e, t2 ++ [EvEnableXformers])
                | inr _ => (inr p, t2 ++ [EvEnableXformers])
                end
              else (inr p, t2)
          end
      end
  end.
Proof.
  unfold _load_pipeline. rewrite bind_run.
  destruct (run (load_attempts W path dt)) as [[e|p0] t]; [done|].
  unfold try_except_Exception, try_catch, raise, call, emit, mbind, M_bind,
    mret, M_ret. simpl.
  destruct (pipe_to W p0 dev) as [e|p]; [done|]. simpl.
  destruct slicing; simpl.
  - destruct (pipe_enable_attention_slicing W p) as [e|[]]; [done|]. simpl.
    destruct (String.eqb dev "cuda"); [|done]. simpl.
    destruct (pipe_enable_xformers W p) as [e|[]]; [|done]. simpl.
    by destruct (Py.is_Exception e).
  - destruct (String.eqb dev "cuda"); [|done]. simpl.
    destruct (pipe_enable_xformers W p) as [e|[]]; [|done]. simpl.
    by destruct (Py.is_Exception e).
Qed.

(** A pipeline that [_load_pipeline] returns was loaded and then placed. *)
Lemma load_pipeline_placed (path dev : string) (dt : dtype) (slicing : bool)
    (p : Pipe) (t : list event) :
  run (_load_pipeline W path dev dt slicing) = (inr p, t) ->
  exists l p0,
    from_pretrained W l path dt true = inr p0 /\ pipe_to W p0 dev = inr p.
Proof.
  rewrite load_pipeline_steps.
  pose proof (load_attempts_loaded path dt) as Hloaded.
  destruct (run (load_attempts W path dt)) as [[e|p0] t0]; [done|].
  destruct (Hloaded p0 eq_refl) as [l Hl]. simpl.
  destruct (pipe_to W p0 dev) as [e|p'] eqn:Hto; [done|].
  intros H. exists l, p0. split; [done|].
  assert (p' = p) as ->; [|done].
  destruct slicing; simpl in H.
  - destruct (pipe_enable_attention_slicing W p') as [e|[]]; [done|].
    destruct (String.eqb dev "cuda"); [|congruence].
    destruct (pipe_enable_xformers W p') as [e|[]];
      [destruct (Py.is_Exception e)|]; congruence.
  - destruct (String.eqb dev "cuda"); [|congruence].
    destruct (pipe_enable_xformers W p') as [e|[]];
      [destruct (Py.is_Exception e)|]; congruence.
Qed.

(** X2: when [_load_pipeline] returns a pipeline, it is the one
    [.to(device)] gave for a pipeline some loader returned, and after the
    loads the trace holds the placement on the device, then the attention
    slicing exactly when it is asked for, then the memory-efficient
    attention exactly when the device is [cuda]. *)
Theorem post_load_steps (path dev : string) (dt : dtype) (slicing : bool)
    (p : Pipe) (t : list event) :
  run (_load_pipeline W path dev dt slicing) = (inr p, t) ->
  exists l p0,
    from_pretrained W l path dt true = inr p0 /\
    pipe_to W p0 dev = inr p /\
    t = (run (load_attempts W path dt)).2 ++ [EvTo dev]
        ++ (if slicing then [EvEnableAttentionSlicing] else [])
        ++ (if String.eqb dev "cuda" then [EvEnableXformers] else []).
Proof.
  rewrite load_pipeline_steps.
  pose proof (load_attempts_loaded path dt) as Hloaded.
  destruct (run (load_attempts W path dt)) as [[e|p0] t0]; [done|].
  destruct (Hloaded p0 eq_refl) as [l Hl]. simpl.
  destruct (pipe_to W p0 dev) as [e|p'] eqn:Hto; [done|].
  intros H. exists l, p0. split; [done|].
  destruct slicing; simpl in H.
  - destruct (pipe_enable_attention_slicing W p') as [e|[]]; [done|].
    destruct (String.eqb dev "cuda").
    + destruct (pipe_enable_xformers W p') as [e|[]];
        [destruct (Py.is_Exception e)|]; try done;
        injection H as <- <-; (split; [done|]); by rewrite <- !List.app_assoc.
    + injection H as <- <-. split; [done|]. by rewrite <- !List.app_assoc.
  - destruct (String.eqb dev "cuda").
    + destruct (pipe_enable_xformers W p') as [e|[]];
        [destruct (Py.is_Exception e)|]; try done;
        injection H as <- <-; (split; [done|]); by rewrite <- !List.app_assoc.
    + injection H as <- <-. split; [done|]. by rewrite List.app_nil_r.
Qed.

(** X3: on [cuda], a failure to switch the memory-efficient attention on
    is swallowed: when the load, the placement and the attention slicing
    go through, [_load_pipeline] returns the placed pipeline although
    [enable_xformers_memory_efficient_attention] raised an [Exception]. *)
Theorem xformers_failure_swallowed (path : string) (dt : dtype) (slicing : bool)
    (p0 p : Pipe) (e : Py.pyexc) :
  (run (load_attempts W path dt)).1 = inr p0 ->
  pipe_to W p0 "cuda" = inr p ->
  (slicing = true -> pipe_enable_attention_slicing W p = inr tt) ->
  pipe_enable_xformers W p = inl e ->
  Py.is_Exception e = true ->
  (run (_load_pipeline W path "cuda" dt slicing)).1 = inr p.
Proof.
  intros Hload Hto Hslicing Hx He. rewrite load_pipeline_steps.
  destruct (run (load_attempts W path dt)) as [r t]. simpl in Hload. subst r.
  rewrite Hto. simpl. rewrite Hx, He.
  destruct slicing; [by rewrite Hslicing|done].
Qed.

(** X4: an exception of [pipeline.to(device)] is not turned into the
    [Failed to load] error: [_load_pipeline] raises it as it is, right
    after the placement was tried, and tries no optimisation. *)
Theorem device_move_failure_unwrapped (path dev : string) (dt : dtype)
    (slicing : bool) (p0 : Pipe) (e : Py.pyexc) :
  (run (load_attempts W path dt)).1 = inr p0 ->
  pipe_to W p0 dev = inl e ->
  run (_load_pipeline W path dev dt slicing) =
  (inl e, (run (load_attempts W path dt)).2 ++ [EvTo dev]).
Proof.
  intros Hload Hto. rewrite load_pipeline_steps.
  destruct (run (load_attempts W path dt)) as [r t]. simpl in Hload. subst r.
  by rewrite Hto.
Qed.

(** X5: the instance [__init__] builds holds the path and the flag it was
    given, the resolved device, the numeric type resolved for that device,
    and a pipeline that was loaded with that type and placed on that
    device. *)
Theorem init_fields (path hint precision : string) (slicing : bool)
    (self : DiffusersPipeline Pipe) (t : list event) :
  run (init W path hint precision slicing) = (inr self, t) ->
  model_path self = path /\
  enable_attention_slicing self = slicing /\
  device self = _resolve_device W hint /\
  dtype_ self = _resolve_dtype (device self) precision /\
  exists l p0,
    from_pretrained W l path (dtype_ self) true = inr p0 /\
    pipe_to W p0 (device self) = inr (pipeline self).
Proof.
  unfold init. rewrite bind_run.
  destruct (run (_load_pipeline W path _ _ slicing)) as [[e|p] t'] eqn:Hrun; [done|].
  intros [= <- <-]. simpl. split_and!; try done.
  apply load_pipeline_placed in Hrun as (l & p0 & Hl & Hto). eauto.
Qed.

Lemma init_device (path hint precision : string) (slicing : bool)
    (self : DiffusersPipeline Pipe) (t : list event) :
  run (init W path hint precision slicing) = (inr self, t) ->
  device self = _resolve_device W hint.
Proof.
  unfold init. rewrite bind_run.
  destruct (run (_load_pipeline W path _ _ slicing)) as [[e|p] t']; [done|].
  by intros [= <- <-].
Qed.
End PipelineProps.

Lemma post_load_steps_witness :
  exists l p0,
    from_pretrained (faulty_world false false false) l "/m" float16 true = inr p0 /\
    pipe_to (faulty_world false false false) p0 "cuda" = inr 2%nat /\
    [EvFromPretrained DiffusionPipeline "/m" float16 true; EvTo "cuda";
     EvEnableAttentionSlicing; EvEnableXformers]
    = (run (load_attempts (faulty_world false false false) "/m" float16)).2
      ++ [EvTo "cuda"] ++ [EvEnableAttentionSlicing] ++ [EvEnableXformers].
Proof.
  exact (post_load_steps (faulty_world false false false) "/m" "cuda" float16 true
           2%nat _ eq_refl).
Defined.

Lemma xformers_failure_swallowed_witness :
  (run (_load_pipeline (faulty_world false true false) "/m" "cuda" float16 true)).1
  = inr 2%nat.
Proof.
  apply (xformers_failure_swallowed (faulty_world false true false) "/m" float16 true
           1%nat 2%nat
           (Py.Raise (Py.OtherException "ModuleNotFoundError") "No module named 'xformers'"));
    reflexivity.
Defined.

Lemma device_move_failure_unwrapped_witness :
  run (_load_pipeline (faulty_world true false false) "/m" "cuda" float16 true) =
  (inl (Py.Raise Py.RuntimeError "CUDA out of memory"),
   [EvFromPretrained DiffusionPipeline "/m" float16 true; EvTo "cuda"]).
Proof.
  apply (device_move_failure_unwrapped (faulty_world true false false) "/m" "cuda"
           float16 true 1%nat); reflexivity.
Defined.

Lemma init_fields_witness :
  exists l p0,
    from_pretrained (faulty_world false false false) l "/m" float16 true = inr p0 /\
    pipe_to (faulty_world false false false) p0 "cuda" = inr 2%nat.
Proof.
  exact (proj2 (proj2 (proj2 (proj2
    (init_fields (faulty_world false false false) "/m" "auto" "auto" false
       {| model_path := "/m"; device := "cuda"; dtype_ := float16;
          enable_attention_slicing := false; pipeline := 2%nat |} _ eq_refl))))).
Defined.

(** X6: the keyword dictionary of the model call has the six fixed keys,
    the key [generator] exactly when a generator was built, and the key
    [negative_prompt] exactly when a negative prompt was given. *)
Theorem kwargs_keys (a : GenerateArgs) (generator : option pyval) :
  dom (build_kwargs a generator) =
  ({[ "prompt"; "num_images_per_prompt"; "width"; "height";
      "num_inference_steps"; "guidance_scale" ]} : gset string)
  ∪ (match generator with Some _ => {[ "generator" ]} | None => ∅ end)
  ∪ (match negative_prompt a with Some _ => {[ "negative_prompt" ]} | None => ∅ end).
Proof.
  unfold build_kwargs, base_kwargs.
  destruct generator, (negative_prompt a); rewrite !dom_insert_L, dom_empty_L;
    set_solver.
Qed.

Section GenerateProps.
Context {Image Pipe : Type} (W : World Image Pipe).

(** One run of [generate], case by case. *)
Lemma generate_run (self : DiffusersPipeline Pipe) (a : GenerateArgs) :
  run (generate W self a) =
  match seed a with
  | Some s =>
      match torch_generator W (device self) s with
      | inl e => (inl e, [EvGenerate a])
      | inr g =>
          (pipe_call W (pipeline self) (build_kwargs a (Some g)),
           [EvGenerate a; EvPipelineCall (build_kwargs a (Some g))])
      end
  | None =>
      (pipe_call W (pipeline self) (build_kwargs a None),
       [EvGenerate a; EvPipelineCall (build_kwargs a None)])
  end.
Proof.
  unfold run, generate, call, emit, mbind, M_bind, mret, M_ret. simpl.
  destruct (seed a) as [s|]; [|done].
  by destruct (torch_generator W (device self) s).
Qed.

(** X7: a generation with a seed, on an instance [__init__] built, makes
    the random generator on the resolved device with that seed and hands
    it to the model under [generator], together with the prompt, the
    numbers and the negative prompt of the call; what the model call
    returns or raises is what [generate] returns or raises. *)
Theorem seeded_generation (path hint precision : string) (slicing : bool)
    (self : DiffusersPipeline Pipe) (t : list event)
    (a : GenerateArgs) (s : Z) (g : pyval) :
  run (init W path hint precision slicing) = (inr self, t) ->
  seed a = Some s ->
  torch_generator W (_resolve_device W hint) s = inr g ->
  exists kw,
    run (generate W self a) =
      (pipe_call W (pipeline self) kw, [EvGenerate a; EvPipelineCall kw]) /\
    kw !! "generator" = Some g /\
    kw !! "prompt" = Some (VStr (prompt a)) /\
    kw !! "num_images_per_prompt" = Some (VInt (num_images a)) /\
    kw !! "width" = Some (VInt (width a)) /\
    kw !! "height" = Some (VInt (height a)) /\
    kw !! "num_inference_steps" = Some (VInt (num_inference_steps a)) /\
    kw !! "guidance_scale" = Some (VFloat (guidance_scale a)) /\
    kw !! "negative_prompt" = VStr <$> negative_prompt a.
Proof.
  intros Hinit Hseed Hgen.
  apply init_device in Hinit as Hdev.
  exists (build_kwargs a (Some g)).
  rewrite generate_run, Hseed, Hdev, Hgen. split; [done|].
  unfold build_kwargs, base_kwargs.
  destruct (negative_prompt a); split_and!; by simplify_map_eq.
Qed.

(** X8: when the random generator cannot be made, [generate] raises that
    exception and the model is not called. *)
Theorem generator_failure_stops_generation (self : DiffusersPipeline Pipe)
    (a : GenerateArgs) (s : Z) (e : Py.pyexc) :
  seed a = Some s ->
  torch_generator W (device self) s = inl e ->
  (run (generate W self a)).1 = inl e /\
  pipeline_calls (run (generate W self a)).2 = [].
Proof.
  intros Hseed Hgen. by rewrite generate_run, Hseed, Hgen.
Qed.
End GenerateProps.

Lemma seeded_generation_witness :
  exists kw,
    run (generate (faulty_world false false false)
           {| model_path := "/m"; device := "cuda"; dtype_ := float16;
              enable_attention_slicing := false; pipeline := 2%nat |} seeded_args) =
      (pipe_call (faulty_world false false false) 2%nat kw,
       [EvGenerate seeded_args; EvPipelineCall kw]) /\
    kw !! "generator" = Some (VGenerator "cuda" 42) /\
    kw !! "prompt" = Some (VStr "a cat") /\
    kw !! "num_images_per_prompt" = Some (VInt 1) /\
    kw !! "width" = Some (VInt 64) /\
    kw !! "height" = Some (VInt 64) /\
    kw !! "num_inference_steps" = Some (VInt 30) /\
    kw !! "guidance_scale" = Some (VFloat (15 # 2)) /\
    kw !! "negative_prompt" = Some (VStr "blurry").
Proof.
  exact (seeded_generation (faulty_world false false false) "/m" "auto" "auto" false
           {| model_path := "/m"; device := "cuda"; dtype_ := float16;
              enable_attention_slicing := false; pipeline := 2%nat |} _
           seeded_args 42 (VGenerator "cuda" 42) eq_refl eq_refl eq_refl).
Defined.

Lemma generator_failure_stops_generation_witness :
  (run (generate (faulty_world false false true)
          {| model_path := "/m"; device := "cuda"; dtype_ := float16;
             enable_attention_slicing := false; pipeline := 2%nat |} seeded_args)).1
    = inl (Py.Raise Py.RuntimeError "no such device") /\
  pipeline_calls
    (run (generate (faulty_world false false true)
            {| model_path := "/m"; device := "cuda"; dtype_ := float16;
               enable_attention_slicing := false; pipeline := 2%nat |} seeded_args)).2
    = [].
Proof.
  exact (generator_failure_stops_generation (faulty_world false false true)
           {| model_path := "/m"; device := "cuda"; dtype_ := float16;
              enable_attention_slicing := false; pipeline := 2%nat |}
           seeded_args 42 _ eq_refl eq_refl).
Defined.

(** ** server.py: the generation endpoint *)

Section EndpointProps.
Context {Image Pipe : Type} (W : World Image Pipe).

Lemma after_generation_status (request : ImageGenerationRequest)
    (r : Py.result (list Image)) :
  status (after_generation W request r) = 200 \/
  status (after_generation W request r) = 400 \/
  status (after_generation W request r) = 500.
Proof.
  unfold after_generation. destruct r as [e|images].
  - destruct (Py.is_Exception e); simpl; auto.
  - destruct (String.eqb_spec (req_response_format request) "b64_json") as [->|Hne].
    + rewrite encode_loop_b64. simpl. auto.
    + rewrite encode_loop_other by done. destruct images; simpl; auto.
Qed.

(** X9: for every request that passed the validation of the request
    model, the handler [generate_images] ends with one of the five status
    codes 200, 400, 404, 500 and 503, whatever the model does.  (A body
    that fails the validation does not reach the handler.) *)
Theorem status_codes (st : AppState Pipe) (request : ImageGenerationRequest) :
  status (run (generate_images W st request)).1 ∈ [200; 400; 404; 500; 503].
Proof.
  rewrite generate_images_run, !elem_of_cons.
  destruct (_pipeline st) as [p|]; simpl; [|by auto 6].
  destruct (negb _ && _)%bool; simpl; [by auto|].
  destruct (parse_size _ _) as [e|[w h]]; simpl; [by auto|].
  destruct (after_generation_status request
              (pipe_call W (pipeline p)
                 (build_kwargs (handler_args request w h) None)))
    as [-> | [-> | ->]]; auto 6.
Qed.

(** X10: for a validated request whose size is a string of ASCII
    characters, [generate] is called at most once, and it is called
    exactly when the runtime is loaded, the model name is accepted and the
    size is one [parse_size] reads: two [int] literals around one [x]. *)
Theorem model_called_iff_checks_pass (st : AppState Pipe)
    (request : ImageGenerationRequest) :
  Grammar.is_ascii (req_size request) = true ->
  (length (generate_calls (run (generate_images W st request)).2) <= 1)%nat /\
  (generate_calls (run (generate_images W st request)).2 <> [] <->
   is_Some (_pipeline st) /\
   model_accepted (_served_model_names st) (req_model request) /\
   exists w h, Grammar.size_literal (int_max_str_digits W) (req_size request) w h).
Proof.
  intros _. rewrite generate_images_run.
  destruct (_pipeline st) as [p|]; simpl.
  2:{ split; [lia|]. split; [done|]. by intros [[? [=]] _]. }
  destruct (negb _ && _)%bool eqn:Hcheck; simpl.
  { split; [lia|]. split; [done|]. intros (_ & Hm%model_check & _). congruence. }
  apply model_check in Hcheck.
  destruct (parse_size _ _) as [e|[w h]] eqn:Hsize; simpl.
  - split; [lia|]. split; [done|].
    intros (_ & _ & w & h & Hlit%parse_size_complete). congruence.
  - split; [lia|]. split; [|done]. intros _. split_and!; [by eexists | done |].
    exists w, h. by apply parse_size_sound.
Qed.

(** X11: when the three checks pass and the model call raises an
    [Exception], the answer is 500 with the text of that exception,
    whatever the response format; no image data is returned. *)
Theorem generation_failure_is_500 (st : AppState Pipe)
    (request : ImageGenerationRequest) (p : DiffusersPipeline Pipe) (w h : Z)
    (e : Py.pyexc) :
  _pipeline st = Some p ->
  model_accepted (_served_model_names st) (req_model request) ->
  parse_size (int_max_str_digits W) (req_size request) = inr (w, h) ->
  pipe_call W (pipeline p) (build_kwargs (handler_args request w h) None) = inl e ->
  Py.is_Exception e = true ->
  (run (generate_images W st request)).1 = inl (HTTPException 500 (Py.exc_str e)).
Proof.
  intros Hp Hm Hsize Hcall He. rewrite generate_images_run, Hp. cbv beta iota zeta.
  apply model_check in Hm as ->. rewrite Hsize. cbn [fst]. rewrite Hcall.
  simpl. by rewrite He.
Qed.

(** X12: the response format is looked at once per image, so it is not
    looked at when the model returns no image: the answer is then 200 with
    an empty [data], also for a format other than [b64_json]. *)
Theorem empty_result_hides_format (st : AppState Pipe)
    (request : ImageGenerationRequest) (p : DiffusersPipeline Pipe) (w h : Z) :
  _pipeline st = Some p ->
  model_accepted (_served_model_names st) (req_model request) ->
  parse_size (int_max_str_digits W) (req_size request) = inr (w, h) ->
  pipe_call W (pipeline p) (build_kwargs (handler_args request w h) None) = inr [] ->
  (run (generate_images W st request)).1 = inr {| created := time_time W; data := [] |}.
Proof.
  intros Hp Hm Hsize Hcall. rewrite generate_images_run, Hp. cbv beta iota zeta.
  apply model_check in Hm as ->. rewrite Hsize. cbn [fst]. by rewrite Hcall.
Qed.

(** X13: for a validated request the checks are made in a fixed order
    and each rejection is made before anything is called.  Without a
    loaded runtime the request gets 503 [Model not loaded]; with it, a
    model name that is not accepted gets 404 whatever the size is; with it
    and an accepted name, a size of ASCII characters that is not two [int]
    literals around one [x] gets 400 with the message
    [Invalid size format: ] followed by the size as it was sent. *)
Theorem rejections (st : AppState Pipe) (request : ImageGenerationRequest) :
  (_pipeline st = None ->
   run (generate_images W st request)
     = (inl (HTTPException 503 "Model not loaded"), [])) /\
  (is_Some (_pipeline st) ->
   ~ model_accepted (_served_model_names st) (req_model request) ->
   status (run (generate_images W st request)).1 = 404 /\
   (run (generate_images W st request)).2 = []) /\
  (is_Some (_pipeline st) ->
   model_accepted (_served_model_names st) (req_model request) ->
   Grammar.is_ascii (req_size request) = true ->
   (forall w h, ~ Grammar.size_literal (int_max_str_digits W) (req_size request) w h) ->
   run (generate_images W st request)
     = (inl (HTTPException 400 ("Invalid size format: " +:+ req_size request)), [])).
Proof.
  rewrite generate_images_run. split_and!.
  - by intros ->.
  - intros [p ->] Hm. simpl.
    destruct (negb _ && _)%bool eqn:Hcheck; [done|].
    by apply model_check in Hcheck.
  - intros [p ->] Hm _ Hsize. simpl. apply model_check in Hm as ->.
    destruct (parse_size _ _) as [e|[w h]] eqn:Hp; [done|].
    apply parse_size_sound in Hp. by destruct (Hsize w h).
Qed.

(** The answer is 404 exactly when the model name is not accepted. *)
Lemma status_404_iff (st : AppState Pipe) (request : ImageGenerationRequest) :
  is_Some (_pipeline st) ->
  status (run (generate_images W st request)).1 = 404 <->
  ~ model_accepted (_served_model_names st) (req_model request).
Proof.
  intros [p Hp]. rewrite generate_images_run, Hp. simpl.
  destruct (negb _ && _)%bool eqn:Hcheck; simpl.
  - split; [|done]. intros _ Hm%model_check. congruence.
  - apply model_check in Hcheck. split; [|done].
    destruct (parse_size _ _) as [e|[w h]]; simpl; [done|].
    destruct (after_generation_status request
                (pipe_call W (pipeline p)
                   (build_kwargs (handler_args request w h) None)))
      as [-> | [-> | ->]]; done.
Qed.

(** X14: once [run_server] has set the globals, the health probe reports
    the model as loaded, no request is answered 503, and a request is
    answered 404 exactly when a non-empty list of served names was given
    and the model of the request is not in it; without such a list every
    model name is served. *)
Theorem serving_after_startup (path hint precision : string) (slicing : bool)
    (served : option (list string)) (st : AppState Pipe) (t : list event)
    (request : ImageGenerationRequest) :
  run (run_server W path hint precision slicing served) = (inr st, t) ->
  model_loaded (health_check st) = true /\
  status (run (generate_images W st request)).1 <> 503 /\
  (status (run (generate_images W st request)).1 = 404 <->
   exists names, served = Some names /\ names <> [] /\ req_model request ∉ names).
Proof.
  unfold run_server. rewrite bind_run.
  destruct (run (init W path hint precision slicing)) as [[e|p] t'] eqn:Hinit; [done|].
  intros [= <- <-]. split; [done|]. split.
  - rewrite generate_images_run. simpl.
    destruct (negb _ && _)%bool; simpl; [done|].
    destruct (parse_size _ _) as [e|[w h]]; simpl; [done|].
    destruct (after_generation_status request
                (pipe_call W (pipeline p)
                   (build_kwargs (handler_args request w h) None)))
      as [-> | [-> | ->]]; done.
  - rewrite status_404_iff by (by eexists). unfold model_accepted. simpl.
    destruct served as [names|]; simpl.
    + split.
      * intros Hnot. exists names. split_and!; [done | |]; intros ?; apply Hnot; auto.
      * intros (? & [= <-] & Hne & Hnot) [? | ?]; done.
    + split; [intros Hnot; destruct Hnot; by left|]. by intros (? & [=] & _).
Qed.
End EndpointProps.

Lemma model_called_iff_checks_pass_witness :
  Grammar.is_ascii (req_size url_request) = true /\
  (length (generate_calls
             (run (generate_images demo_world demo_state url_request)).2) <= 1)%nat /\
  exists w h, Grammar.size_literal 4300 "512x512" w h.
Proof.
  destruct (model_called_iff_checks_pass demo_world demo_state url_request eq_refl)
    as [Hlen Hiff].
  split; [reflexivity|]. split; [exact Hlen|].
  destruct (proj1 Hiff ltac:(discriminate)) as (_ & _ & Hlit). exact Hlit.
Defined.

Lemma rejections_witness :
  run (generate_images demo_world demo_state (demo_request "bad" "b64_json" 1))
  = (inl (HTTPException 400 ("Invalid size format: " +:+ "bad")), []).
Proof.
  destruct (rejections demo_world demo_state (demo_request "bad" "b64_json" 1))
    as (_ & _ & H400).
  apply H400; [by eexists | right; constructor | reflexivity |].
  intros w h Hlit. apply (parse_size_complete 4300) in Hlit.
  vm_compute in Hlit. discriminate Hlit.
Defined.

Lemma generation_failure_is_500_witness :
  (run (generate_images failing_model_world demo_state url_request)).1
  = inl (HTTPException 500 "out of memory").
Proof.
  apply (generation_failure_is_500 failing_model_world demo_state url_request
           demo_pipeline 512 512 (Py.Raise Py.RuntimeError "out of memory"));
    [reflexivity | right; constructor | reflexivity | reflexivity | reflexivity].
Defined.

Lemma empty_result_hides_format_witness :
  req_response_format url_request <> "b64_json" /\
  (run (generate_images (broken_world true) demo_state url_request)).1
  = inr {| created := 0; data := [] |}.
Proof.
  split; [discriminate|].
  apply (empty_result_hides_format (broken_world true) demo_state url_request
           demo_pipeline 512 512);
    [reflexivity | right; constructor | reflexivity | reflexivity].
Defined.

Lemma serving_after_startup_witness :
  model_loaded (health_check demo_state) = true /\
  status (run (generate_images demo_world demo_state stranger_request)).1 <> 503 /\
  (status (run (generate_images demo_world demo_state stranger_request)).1 = 404 <->
   exists names, Some ["m1"] = Some names /\ names <> [] /\
                 req_model stranger_request ∉ names).
Proof.
  exact (serving_after_startup demo_world "/models/sd" "auto" "auto" true
           (Some ["m1"])
           {| _pipeline := Some {| model_path := "/models/sd"; device := "cpu";
                                   dtype_ := float32; enable_attention_slicing := true;
                                   pipeline := tt |};
              _served_model_names := ["m1"] |} _ stranger_request eq_refl).
Defined.

Section DefaultRequest.
Context {Image Pipe : Type} (W : World Image Pipe).

Lemma parse_default_size (limit : nat) :
  parse_size limit "1024x1024" = inr (1024, 1024).
Proof. reflexivity. Qed.

(** X15: a body that gives only [model] and [prompt] is accepted, and
    with a loaded runtime and an accepted model name it makes one call of
    [generate]: one image of 1024 by 1024, 30 steps, guidance scale 7.5,
    no negative prompt and no seed. *)
Theorem default_request_arguments (st : AppState Pipe) (b : RequestBody)
    (model prompt_text : string) :
  body_model b = Some model -> body_prompt b = Some prompt_text ->
  body_n b = None -> body_size b = None -> body_quality b = None ->
  is_Some (_pipeline st) ->
  model_accepted (_served_model_names st) model ->
  exists request,
    validate b = Some request /\
    generate_calls (run (generate_images W st request)).2 =
    [ {| prompt := prompt_text; num_images := 1; width := 1024; height := 1024;
         num_inference_steps := 30; guidance_scale := 15 # 2;
         negative_prompt := None; seed := None |} ].
Proof.
  intros Hm Hp Hn Hs Hq [p Hpipe] Hacc. unfold validate.
  rewrite Hm, Hp, Hn, Hs, Hq. simpl. eexists. split; [reflexivity|].
  rewrite generate_images_run, Hpipe. cbv beta iota zeta.
  cbn [req_model req_size]. apply model_check in Hacc as ->.
  by rewrite parse_default_size.
Qed.
End DefaultRequest.

Lemma default_request_arguments_witness :
  exists request,
    validate minimal_body = Some request /\
    generate_calls (run (generate_images demo_world demo_state request)).2 =
    [ {| prompt := "a cat"; num_images := 1; width := 1024; height := 1024;
         num_inference_steps := 30; guidance_scale := 15 # 2;
         negative_prompt := None; seed := None |} ].
Proof.
  apply (default_request_arguments demo_world demo_state minimal_body "m1" "a cat");
    try reflexivity; [by eexists | right; constructor].
Defined.

(** ** server.py: the read-only endpoints *)

Lemma list_models_loop_spec (clock : nat -> Z) (names : list string) :
  forall k models,
    list_models_loop clock k names models =
    models ++ imap (fun i name =>
                      {| card_id := name; card_object := "model";
                         card_created := clock (k + i)%nat;
                         card_owned_by := "diffusers" |}) names.
Proof.
  induction names as [|name rest IH]; intros k models; simpl.
  - by rewrite List.app_nil_r.
  - rewrite IH, <- List.app_assoc. simpl. rewrite Nat.add_0_r.
    do 2 f_equal. apply imap_ext. intros i x _. simpl. do 2 f_equal. lia.
Qed.

Lemma card_ids (readings : nat -> Z) (names : list string) :
  map card_id
    (imap (fun i name =>
             {| card_id := name; card_object := "model";
                card_created := readings i; card_owned_by := "diffusers" |}) names)
  = names.
Proof.
  revert readings. induction names as [|x l IH]; intros readings; [done|].
  rewrite imap_cons. simpl. f_equal. apply (IH (readings ∘ S)).
Qed.

(** X16: the model list has one entry per served name, in the order of
    the registry and with its repetitions; every entry is a [model] owned
    by [diffusers], and the entry at position [i] carries the [i]-th
    reading of the clock. *)
Theorem list_models_echoes_registry {Pipe} (clock : nat -> Z) (st : AppState Pipe) :
  list_object (list_models clock st) = "list" /\
  map card_id (list_data (list_models clock st)) = _served_model_names st /\
  Forall (fun c => card_object c = "model" /\ card_owned_by c = "diffusers")
         (list_data (list_models clock st)) /\
  (forall i c, list_data (list_models clock st) !! i = Some c ->
               card_created c = clock i).
Proof.
  unfold list_models. simpl. rewrite list_models_loop_spec. simpl.
  generalize (_served_model_names st). intros names. split_and!; [done | | |].
  - apply card_ids.
  - apply Forall_forall. intros c [i [x [-> _]]]%elem_of_lookup_imap. done.
  - intros i c Hc. apply list_lookup_imap_Some in Hc as (x & _ & ->). done.
Qed.

(** ** server.py: the socket of run_server *)

Lemma remove_if_exists_clear (H : Host) (path : string) (s : SysState) :
  clearable H path (sys_files s) ->
  remove_if_exists H path s = (inr tt, set_files s (delete path (sys_files s))).
Proof.
  unfold clearable, remove_if_exists, os_path_exists, os_unlink, mbind, Sys_bind.
  simpl. destruct (sys_files s !! path) as [[mode| |]|] eqn:Hlook; try done.
  - intros Hun. by rewrite Hlook, Hun.
  - intros _. rewrite delete_id by done. by destruct s.
Qed.

(** One run of the second half of [run_server] from a path that can be
    cleared, case by case. *)
Lemma serve_on_socket_run (H : Host) (path : string) (s : SysState) :
  clearable H path (sys_files s) ->
  serve_on_socket H path s =
  match bind_refused H path with
  | Some e => (inl e, set_files s (delete path (sys_files s)))
  | None =>
      match server_run H (<[path := Entry mode_0o666]> (delete path (sys_files s))) with
      | (r, files) =>
          match remove_if_exists H path (set_files s files) with
          | (inl e, s') => (inl e, s')
          | (inr _, s') => (r, s')
          end
      end
  end.
Proof.
  intros Hclear. unfold serve_on_socket, mbind, Sys_bind.
  rewrite remove_if_exists_clear by done.
  unfold sock_bind. simpl. rewrite lookup_delete_eq.
  destruct (bind_refused H path) as [e|]; [done|].
  unfold os_chmod. simpl. rewrite lookup_insert_eq, insert_insert_eq.
  unfold try_finally, call_server_run. simpl.
  by destruct (server_run H _) as [r files].
Qed.

(** X17: when the socket path can be cleared at the start (it holds
    nothing, or an entry the process may unlink) and what the server
    leaves there can be cleared too, nothing is left at the socket path
    when the second half of [run_server] ends: after a refused bind, a
    server that returns, or a server that raises. *)
Theorem socket_removed_at_exit (H : Host) (path : string) (s : SysState) :
  clearable H path (sys_files s) ->
  (bind_refused H path = None ->
   clearable H path
     (server_run H (<[path := Entry mode_0o666]> (delete path (sys_files s)))).2) ->
  sys_files (serve_on_socket H path s).2 !! path = None.
Proof.
  intros Hstart Hleft. rewrite serve_on_socket_run by done.
  destruct (bind_refused H path) as [e|]; [apply lookup_delete_eq|].
  specialize (Hleft eq_refl).
  destruct (server_run H _) as [r files]. simpl in Hleft.
  rewrite remove_if_exists_clear by done. apply lookup_delete_eq.
Qed.

Lemma socket_removed_at_exit_witness :
  sys_files (serve_on_socket demo_host "/run/diffusers.sock" stale_start).2
    !! "/run/diffusers.sock" = None.
Proof.
  apply (socket_removed_at_exit demo_host "/run/diffusers.sock" stale_start);
    [reflexivity | intros _; reflexivity].
Defined.





(** ** __main__.py *)

Section MainProps.
Context {Image Pipe : Type} (W : World Image Pipe) (H : Host).

Lemma lift_M_fresh {A} (m : M Py.pyexc A) (s : SysState) :
  sys_trace s = [] ->
  lift_M m s = ((run m).1, {| sys_trace := (run m).2; sys_files := sys_files s |}).
Proof.
  intros Ht. unfold lift_M, run. rewrite Ht. by destruct (m []).
Qed.

Lemma run_server_init (path hint precision : string) (slicing : bool)
    (served : option (list string)) :
  (run (run_server W path hint precision slicing served)).1 =
  match (run (init W path hint precision slicing)).1 with
  | inl e => inl e
  | inr p => inr {| _pipeline := Some p; _served_model_names := default [] served |}
  end /\
  (run (run_server W path hint precision slicing served)).2
    = (run (init W path hint precision slicing)).2.
Proof.
  unfold run_server. rewrite bind_run.
  by destruct (run (init W path hint precision slicing)) as [[e|p] t].
Qed.

(** X19: when the pipeline cannot be built (an [Exception] [e] of the
    constructor), [main] prints [Error: ] and the text of [e] on the
    standard error, exits with status 1, and leaves the files alone: the
    socket path is neither removed nor created. *)
Theorem main_startup_failure (args : Namespace) (s : SysState) (e : Py.pyexc) :
  sys_trace s = [] ->
  (run (init W (arg_model_path args) (arg_device args) (arg_precision args)
          (arg_enable_attention_slicing args))).1 = inl e ->
  Py.is_Exception e = true ->
  (main W H args s).1 = Exit 1 "" ("Error: " +:+ Py.exc_str e +:+ newline) /\
  sys_files (main W H args s).2 = sys_files s.
Proof.
  intros Ht Hinit He. unfold main, run_server_process, mbind, Sys_bind.
  rewrite lift_M_fresh by done.
  destruct (run_server_init (arg_model_path args) (arg_device args)
              (arg_precision args) (arg_enable_attention_slicing args)
              (Some (arg_served_model_name args))) as [-> _].
  rewrite Hinit. simpl.
  assert (is_KeyboardInterrupt e = false) as ->.
  { unfold is_KeyboardInterrupt, Py.is_Exception in *. by destruct (Py.exc_cls e). }
  by rewrite He.
Qed.

End MainProps.

Lemma main_startup_failure_witness :
  (main (broken_world false) demo_host demo_args stale_start).1 =
    Exit 1 ""
      ("Error: " +:+ "Failed to load diffusers model from /models/sd: no sd weights"
       +:+ newline) /\
  sys_files (main (broken_world false) demo_host demo_args stale_start).2
    = sys_files stale_start.
Proof.
  exact (main_startup_failure (broken_world false) demo_host demo_args stale_start
           (Py.Raise Py.RuntimeError
              "Failed to load diffusers model from /models/sd: no sd weights")
           eq_refl eq_refl eq_refl).
Defined.


(** ** The encoding of the images *)

Lemma b64_digit_inj (n m : N) :
  (n < 64)%N -> (m < 64)%N -> b64_digit n = b64_digit m -> n = m.
Proof.
  intros Hn Hm Heq.
  assert (forallb (fun i => forallb (fun j =>
            implb (Ascii.eqb (b64_digit (N.of_nat i)) (b64_digit (N.of_nat j)))
                  (i =? j)%nat) (seq 0 64)) (seq 0 64) = true) as Htable
    by (vm_compute; reflexivity).
  rewrite forallb_forall in Htable.
  specialize (Htable (N.to_nat n)). rewrite forallb_forall in Htable.
  specialize (Htable ltac:(apply in_seq; lia) (N.to_nat m) ltac:(apply in_seq; lia)).
  rewrite !N2Nat.id, Heq, Ascii.eqb_refl in Htable. simpl in Htable.
  apply Nat.eqb_eq in Htable. lia.
Qed.

Lemma b64_digit_not_pad (n : N) : (n < 64)%N -> b64_digit n <> "="%char.
Proof.
  intros Hn Heq.
  assert (forallb (fun i => negb (Ascii.eqb (b64_digit (N.of_nat i)) "="))
            (seq 0 64) = true) as Htable by (vm_compute; reflexivity).
  rewrite forallb_forall in Htable.
  specialize (Htable (N.to_nat n) ltac:(apply in_seq; lia)).
  rewrite N2Nat.id, Heq in Htable. discriminate.
Qed.

Lemma byte_to_N_inj (x y : Byte.byte) : Byte.to_N x = Byte.to_N y -> x = y.
Proof.
  intros Heq. pose proof (Byte.of_to_N x) as Hx. rewrite Heq, Byte.of_to_N in Hx.
  congruence.
Qed.

Lemma byte_bound (x : Byte.byte) : (Byte.to_N x < 256)%N.
Proof. pose proof (Byte.to_N_bounded x). lia. Qed.

(** Three bytes are determined by the four digits they are cut into. *)
Lemma sextets_inj (x y z x' y' z' : N) :
  (x < 256 -> y < 256 -> z < 256 -> x' < 256 -> y' < 256 -> z' < 256 ->
   x / 4 = x' / 4 ->
   x mod 4 * 16 + y / 16 = x' mod 4 * 16 + y' / 16 ->
   y mod 16 * 4 + z / 64 = y' mod 16 * 4 + z' / 64 ->
   z mod 64 = z' mod 64 ->
   x = x' /\ y = y' /\ z = z')%N.
Proof.
  pose proof (N.div_mod' x 4). pose proof (N.mod_lt x 4).
  pose proof (N.div_mod' x' 4). pose proof (N.mod_lt x' 4).
  pose proof (N.div_mod' y 16). pose proof (N.mod_lt y 16).
  pose proof (N.div_mod' y' 16). pose proof (N.mod_lt y' 16).
  pose proof (N.div_mod' z 64). pose proof (N.mod_lt z 64).
  pose proof (N.div_mod' z' 64). pose proof (N.mod_lt z' 64).
  lia.
Qed.

Lemma sextet_bounds (x y z : N) :
  (x < 256 -> y < 256 -> z < 256 ->
   x / 4 < 64 /\ x mod 4 * 16 + y / 16 < 64 /\ y mod 16 * 4 + z / 64 < 64 /\
   z mod 64 < 64 /\ x mod 4 * 16 < 64 /\ y mod 16 * 4 < 64)%N.
Proof. intros. zify. Z.to_euclidean_division_equations. lia. Qed.

(** Facts about the bytes at hand: their bounds and those of their
    digits. *)
Ltac byte_facts x y z :=
  pose proof (byte_bound x); pose proof (byte_bound y); pose proof (byte_bound z);
  pose proof (sextet_bounds (Byte.to_N x) (Byte.to_N y) (Byte.to_N z)
                ltac:(assumption) ltac:(assumption) ltac:(assumption))
    as (? & ? & ? & ? & ? & ?).

(** A padding sign where the other side has a digit. *)
Ltac pad_clash :=
  match goal with
  | H : "="%char = b64_digit _ |- _ =>
      symmetry in H; apply b64_digit_not_pad in H; [done | lia]
  | H : b64_digit _ = "="%char |- _ =>
      apply b64_digit_not_pad in H; [done | lia]
  end.

(** Equal digits have equal values. *)
Ltac digit_values :=
  repeat match goal with
         | H : b64_digit _ = b64_digit _ |- _ =>
             apply b64_digit_inj in H; [| lia | lia]
         end.

Lemma b64encode_inj_upto (n : nat) :
  forall a b, (length a <= n)%nat -> b64encode a = b64encode b -> a = b.
Proof.
  induction n as [n IH] using lt_wf_ind. intros a b Hlen Heq.
  destruct a as [|x [|y [|z r]]], b as [|x' [|y' [|z' r']]];
    simpl in Heq; try done; injection Heq; intros.
  - (* one byte, one byte *)
    byte_facts x x x. byte_facts x' x' x'. digit_values.
    destruct (sextets_inj (Byte.to_N x) 0 0 (Byte.to_N x') 0 0) as (Hx & _);
      try lia. by apply byte_to_N_inj in Hx as ->.
  - byte_facts x' y' x'. pad_clash.
  - byte_facts x' y' z'. pad_clash.
  - byte_facts x y x. pad_clash.
  - (* two bytes, two bytes *)
    byte_facts x y x. byte_facts x' y' x'. digit_values.
    destruct (sextets_inj (Byte.to_N x) (Byte.to_N y) 0 (Byte.to_N x') (Byte.to_N y') 0)
      as (Hx & Hy & _); try lia.
    apply byte_to_N_inj in Hx as ->. by apply byte_to_N_inj in Hy as ->.
  - byte_facts x' y' z'. pad_clash.
  - byte_facts x y z. pad_clash.
  - byte_facts x y z. pad_clash.
  - (* three bytes and more on both sides *)
    byte_facts x y z. byte_facts x' y' z'. digit_values.
    destruct (sextets_inj (Byte.to_N x) (Byte.to_N y) (Byte.to_N z)
                (Byte.to_N x') (Byte.to_N y') (Byte.to_N z'))
      as (Hx & Hy & Hz); try lia.
    apply byte_to_N_inj in Hx as ->. apply byte_to_N_inj in Hy as ->.
    apply byte_to_N_inj in Hz as ->.
    do 3 f_equal. apply (IH (length r)); [simpl in Hlen; lia | done | done].
Qed.

Lemma b64encode_inj (a b : list Byte.byte) : b64encode a = b64encode b -> a = b.
Proof. by apply (b64encode_inj_upto (length a)). Qed.

(** X21: the encoding of the answer loses nothing: two lists of images
    give the same [data] exactly when they have the same PNG bytes, image
    by image. *)
Theorem encoding_is_lossless {Image Pipe : Type} (W : World Image Pipe)
    (images1 images2 : list Image) :
  map (encode_image W) images1 = map (encode_image W) images2 <->
  map (save_png W) images1 = map (save_png W) images2.
Proof.
  revert images2. induction images1 as [|i1 l1 IH]; intros [|i2 l2]; simpl;
    try done.
  split.
  - intros [= Hb Hl]. apply b64encode_inj in Hb. apply (proj1 (IH l2)) in Hl.
    by rewrite Hb, Hl.
  - intros [= Hb Hl]. apply (proj2 (IH l2)) in Hl. unfold encode_image in *.
    by rewrite Hb, Hl.
Qed.

Lemma b64encode_length_upto (n : nat) :
  forall bs, (length bs <= n)%nat ->
    String.length (b64encode bs) = (4 * ((length bs + 2) / 3))%nat.
Proof.
  induction n as [n IH] using lt_wf_ind. intros bs Hlen.
  destruct bs as [|x [|y [|z r]]]; try reflexivity.
  simpl in Hlen. cbn [b64encode String.length length].
  rewrite (IH (length r)) by lia.
  replace (S (S (S (length r))) + 2)%nat with (length r + 2 + 1 * 3)%nat by lia.
  rewrite Nat.div_add by lia. lia.
Qed.

(** X22: the text of an image is four characters for every three bytes of
    its PNG file, the last group being filled up: [4 * ceil(n / 3)]
    characters for [n] bytes. *)
Theorem b64_json_length {Image Pipe : Type} (W : World Image Pipe) (img : Image) :
  String.length <$> b64_json (encode_image W img)
  = Some (4 * ((length (save_png W img) + 2) / 3))%nat /\
  url (encode_image W img) = None /\ revised_prompt (encode_image W img) = None.
Proof.
  split; [|done]. simpl. f_equal. by apply (b64encode_length_upto (length (save_png W img))).
Qed.

(** ** Loading the model: the policy *)

Section LoadPolicy.
Context {Image Pipe : Type} (W : World Image Pipe).

(** The loaders: which one is tried, and what becomes of their failure. *)
Lemma loader_policy (path hint precision : string) (slicing : bool) :
  let dev := _resolve_device W hint in
  let dt := _resolve_dtype dev precision in
  let r := run (init W path hint precision slicing) in
  let load l := from_pretrained W l path dt true in
  let failed (e : Py.pyexc) :=
    r.1 = inl (Py.Raise Py.RuntimeError
                 ("Failed to load diffusers model from " +:+ path +:+ ": "
                  +:+ Py.exc_str e)) in
  loads_locally path dt r.2 /\
  (path_exists W (os_path_join path "model_index.json") = true ->
   loaders_tried r.2 = [DiffusionPipeline] /\
   forall e, load DiffusionPipeline = inl e -> Py.is_Exception e = true -> failed e) /\
  (path_exists W (os_path_join path "model_index.json") = false ->
   (forall p, load StableDiffusionXLPipeline = inr p ->
              loaders_tried r.2 = [StableDiffusionXLPipeline]) /\
   (forall e1, load StableDiffusionXLPipeline = inl e1 -> Py.is_Exception e1 = true ->
      loaders_tried r.2 = [StableDiffusionXLPipeline; StableDiffusionPipeline] /\
      forall e2, load StableDiffusionPipeline = inl e2 -> Py.is_Exception e2 = true ->
                 failed e2)).
Proof.
  intros dev dt r load failed. subst r load failed.
  destruct (init_run W path hint precision slicing) as [-> Hinit].
  fold dev in Hinit |- *. fold dt in Hinit |- *.
  destruct (load_pipeline_run W path dev dt slicing) as (rest & -> & Hrest & Hfail).
  assert (forall e, (run (load_attempts W path dt)).1 = inl e ->
            (run (init W path hint precision slicing)).1 = inl e) as Hup.
  { intros e He. apply Hinit. by apply Hfail. }
  clear Hinit Hfail. revert Hup.
  rewrite loaders_tried_app, Hrest, List.app_nil_r, load_attempts_run.
  intros Hup. split_and!.
  - apply Forall_app. split; [|by apply no_loader_loads_locally].
    destruct (path_exists W _); [by repeat constructor|].
    destruct (from_pretrained W StableDiffusionXLPipeline path dt true) as [e1|p];
      [destruct (Py.is_Exception e1)|]; by repeat constructor.
  - intros Hex. rewrite Hex in Hup |- *. split; [done|].
    intros e He Hexc. apply Hup. simpl. by rewrite He; simpl; rewrite Hexc.
  - intros Hex. rewrite Hex in Hup |- *. split.
    + by intros p ->.
    + intros e1 He1 Hexc1. rewrite He1, Hexc1 in Hup |- *. split; [done|].
      intros e2 He2 Hexc2. apply Hup. simpl. by rewrite He2; simpl; rewrite Hexc2.
Qed.

(** C9 (amended): with a manifest at the model path the generic loader is
    the one that is tried; without one the SDXL loader is tried first and,
    when it fails, the Stable Diffusion loader; every load is from local
    files.  When the last loader tried fails with an [Exception] [e], the
    constructor raises the one [RuntimeError] whose message is
    [Failed to load diffusers model from <path>: <str(e)>].  A failure
    after the loaders is not wrapped: what [pipeline.to(device)] or
    [enable_attention_slicing] raises is raised to the caller as it is. *)
Theorem load_policy (path hint precision : string) (slicing : bool) :
  let dev := _resolve_device W hint in
  let dt := _resolve_dtype dev precision in
  let r := run (init W path hint precision slicing) in
  let load l := from_pretrained W l path dt true in
  let failed (e : Py.pyexc) :=
    r.1 = inl (Py.Raise Py.RuntimeError
                 ("Failed to load diffusers model from " +:+ path +:+ ": "
                  +:+ Py.exc_str e)) in
  loads_locally path dt r.2 /\
  (path_exists W (os_path_join path "model_index.json") = true ->
   loaders_tried r.2 = [DiffusionPipeline] /\
   forall e, load DiffusionPipeline = inl e -> Py.is_Exception e = true -> failed e) /\
  (path_exists W (os_path_join path "model_index.json") = false ->
   (forall p, load StableDiffusionXLPipeline = inr p ->
              loaders_tried r.2 = [StableDiffusionXLPipeline]) /\
   (forall e1, load StableDiffusionXLPipeline = inl e1 -> Py.is_Exception e1 = true ->
      loaders_tried r.2 = [StableDiffusionXLPipeline; StableDiffusionPipeline] /\
      forall e2, load StableDiffusionPipeline = inl e2 -> Py.is_Exception e2 = true ->
                 failed e2)) /\
  (forall p0 e,
     (run (load_attempts W path dt)).1 = inr p0 ->
     pipe_to W p0 dev = inl e ->
     r.1 = inl e) /\
  (forall p0 p e,
     (run (load_attempts W path dt)).1 = inr p0 ->
     pipe_to W p0 dev = inr p ->
     slicing = true ->
     pipe_enable_attention_slicing W p = inl e ->
     r.1 = inl e).
Proof.
  intros dev dt r load failed.
  destruct (loader_policy path hint precision slicing) as (Hlocal & Hmanifest & Habsent).
  split_and!; [exact Hlocal | exact Hmanifest | exact Habsent | |].
  - intros p0 e Hload Hto. subst r.
    apply (init_run W path hint precision slicing). fold dev. fold dt.
    rewrite load_pipeline_steps.
    destruct (run (load_attempts W path dt)) as [r0 t]. simpl in Hload. subst r0.
    by rewrite Hto.
  - intros p0 p e Hload Hto -> Hslice. subst r.
    apply (init_run W path hint precision true). fold dev. fold dt.
    rewrite load_pipeline_steps.
    destruct (run (load_attempts W path dt)) as [r0 t]. simpl in Hload. subst r0.
    rewrite Hto. simpl. by rewrite Hslice.
Qed.
End LoadPolicy.

Lemma load_policy_witness :
  (run (init (broken_world false) "/models/sd" "auto" "auto" false)).1 =
  inl (Py.Raise Py.RuntimeError
         "Failed to load diffusers model from /models/sd: no sd weights") /\
  loaders_tried (run (init (broken_world false) "/models/sd" "auto" "auto" false)).2
    = [StableDiffusionXLPipeline; StableDiffusionPipeline].
Proof.
  destruct (load_policy (broken_world false) "/models/sd" "auto" "auto" false)
    as (_ & _ & Habsent & _).
  destruct (Habsent eq_refl) as [_ Hsdxl].
  destruct (Hsdxl _ eq_refl eq_refl) as [Htried Hsd].
  split; [exact (Hsd _ eq_refl eq_refl) | exact Htried].
Defined.

(** C9, as stated, fails: the loader succeeds, the placement on the
    device runs out of memory, and the caller gets that [RuntimeError]
    itself, whose message is not [Failed to load diffusers model from ...]. *)
Lemma placement_failure_not_wrapped :
  run (init (faulty_world true false false) "/m" "auto" "auto" false) =
    (inl (Py.Raise Py.RuntimeError "CUDA out of memory"),
     [EvFromPretrained DiffusionPipeline "/m" float16 true; EvTo "cuda"]) /\
  Py.Raise Py.RuntimeError "CUDA out of memory" <>
  Py.Raise Py.RuntimeError
    ("Failed to load diffusers model from " +:+ "/m" +:+ ": " +:+ "CUDA out of memory").
Proof. split; [reflexivity | discriminate]. Qed.
